(** * full-black-windows: monitor targeting and child-process supervision

    A shallow embedding of [fullscreen_black.py] (monitor enumeration and
    the index resolution of [cover_monitor]) and of the [ControllerApp]
    class of [black_controller.py] (the start/stop/poll supervisor).

    Python integers are [Z]; strings are [string]; the dictionaries built by
    [get_monitors] have a fixed key set and are records; [None]-able fields
    are [option]s.  Calls into the operating system are answered by an
    oracle record, and every call the code makes is appended to a trace, so
    that statements can speak about what was (and was not) requested. *)

From Stdlib Require Import ZArith List String Bool Lia.
From Stdlib Require Import DecimalString.
Import ListNotations.
Local Open Scope string_scope.
Local Open Scope list_scope.
Local Open Scope Z_scope.

(** [str(n)] for a Python [int]. *)
Definition str_of_int (n : Z) : string :=
  NilZero.string_of_int (Z.to_int n).

(** Truthiness of a Python [int] (also of a ctypes BOOL or HANDLE result). *)
Definition truthy (n : Z) : bool := negb (n =? 0).

(* ================================================================== *)
(** ** fullscreen_black.py *)

Module FullscreenBlack.

(** The [RECT] and [MONITORINFO] structures declared inside [get_monitors]. *)
Record RECT := mkRECT { r_left : Z; r_top : Z; r_right : Z; r_bottom : Z }.

Record MONITORINFO := mkMONITORINFO {
  rcMonitor : RECT;
  rcWork : RECT;
  dwFlags : Z }.

(** One entry of the list returned by [get_monitors]: the dict with keys
    left, top, right, bottom, width, height, primary. *)
Record Monitor := mkMonitor {
  left : Z; top : Z; right : Z; bottom : Z;
  width : Z; height : Z;
  primary : bool }.

(** What user32 answers during one call of [get_monitors].
    - [enum_handles]: the monitor handles for which [EnumDisplayMonitors]
      invokes the callback, in order (the callback always returns True, so
      it never stops the enumeration itself);
    - [GetMonitorInfoW h]: the BOOL result and the filled structure;
    - [EnumDisplayMonitors_result]: the BOOL the enumeration call returns;
    - [GetSystemMetrics i]: the metric of index [i] (0: SM_CXSCREEN,
      1: SM_CYSCREEN, the size of the primary display). *)
Record User32 := mkUser32 {
  enum_handles : list Z;
  GetMonitorInfoW : Z -> Z * MONITORINFO;
  EnumDisplayMonitors_result : Z;
  GetSystemMetrics : Z -> Z }.

(** [_callback]: appends one dict when [GetMonitorInfoW] succeeds, and
    appends nothing when it fails. *)
Definition _callback (user32 : User32) (monitors : list Monitor) (hMonitor : Z)
  : list Monitor :=
  let '(res, mi) := GetMonitorInfoW user32 hMonitor in
  if negb (truthy res) then monitors
  else
    let r := rcMonitor mi in
    let left := r_left r in
    let top := r_top r in
    let right := r_right r in
    let bottom := r_bottom r in
    monitors ++ [ {| left := left; top := top; right := right; bottom := bottom;
                     width := right - left; height := bottom - top;
                     primary := truthy (Z.land (dwFlags mi) 1) |} ].

(** The entry appended when [EnumDisplayMonitors] reports failure. *)
Definition fallback_entry (user32 : User32) : Monitor :=
  let w := GetSystemMetrics user32 0 in
  let h := GetSystemMetrics user32 1 in
  {| left := 0; top := 0; right := w; bottom := h;
     width := w; height := h; primary := true |}.

(** The list the callback has filled when [EnumDisplayMonitors] returns. *)
Definition enumerated (user32 : User32) : list Monitor :=
  fold_left (_callback user32) (enum_handles user32) [].

Definition get_monitors (user32 : User32) : list Monitor :=
  let monitors := enumerated user32 in
  if negb (truthy (EnumDisplayMonitors_result user32))
  then monitors ++ [fallback_entry user32]
  else monitors.

(** *** cover_monitor *)

(** How a run of [cover_monitor] ends: [sys.exit(code)], an exception
    nobody catches, or the window is up and the Tk main loop runs on the
    rectangle given. *)
Inductive Ending :=
| SysExit (code : Z)
| Uncaught (exception : string)
| MainLoop (geometry : string) (m_left m_top m_width m_height : Z).

(** Lines 80-84: the monitor chosen for a non-empty list, with the lines
    printed while choosing.  [monitors[0]] and [monitors[monitor_index]]
    raise IndexError out of range; the guards make both in range, and the
    model returns [None] exactly where Python would raise. *)
Definition resolve_monitor (monitors : list Monitor) (monitor_index : Z)
  : list string * option Monitor :=
  if (monitor_index <? 0) || (monitor_index >=? Z.of_nat (List.length monitors))
  then ([("Requested monitor " ++ str_of_int monitor_index
            ++ " not found, falling back to primary (0).")%string],
        nth_error monitors 0)
  else ([], nth_error monitors (Z.to_nat monitor_index)).

(** The Tk calls [cover_monitor] makes outside any try block, in the
    order of lines 107-155: [tk.Tk()], [overrideredirect(True)],
    [attributes("-topmost", True)], [configure(background=...)],
    [geometry(...)], [tk.Canvas(...)], [canvas.pack()],
    [canvas.configure(...)] and [bind_all("<Key>", on_key)]. *)
Inductive TkCall :=
| TkCreate
| TkOverrideredirect
| TkAttributesTopmost
| TkConfigureBackground
| TkGeometry (geometry : string)
| TkCanvas (canvas_width canvas_height : Z)
| TkCanvasPack
| TkCanvasConfigure
| TkBindAll.

(** What Tk and the file system answer during one run of [cover_monitor]:
    the exception a Tk call raises, if it raises; whether
    [os.path.exists(ico)] holds at line 129; the exception
    [root.iconbitmap(ico)] raises, if it raises. *)
Record Tk := mkTk {
  tk_raises : TkCall -> option string;
  icon_exists : bool;
  iconbitmap_raises : option string }.

(** The exception that ends a sequence of Tk calls, if one of them
    raises. *)
Fixpoint first_raise (tk : Tk) (calls : list TkCall) : option string :=
  match calls with
  | [] => None
  | call :: rest =>
    match tk_raises tk call with
    | Some e => Some e
    | None => first_raise tk rest
    end
  end.

(** Lines 126-133: the line printed by the handler around
    [root.iconbitmap(ico)]. *)
Definition icon_failure_lines (tk : Tk) : list string :=
  if icon_exists tk then
    match iconbitmap_raises tk with
    | Some _ => ["Failed to set window icon."]
    | None => []
    end
  else [].

(** [cover_monitor]: the printed lines and the ending.  Three blocks are
    wholly inside try/except handlers that print nothing and let nothing
    out, and they do not change the rectangle: the AppUserModelID call
    (lines 91-105), the Win32 icon block (lines 108-124, which stops at
    its use of [os] before the local [import os] of line 127) and the
    SetWindowPos call (lines 157-167).  Every other call is here: a Tk
    call that raises ends the run with that exception. *)
Definition cover_monitor (user32 : User32) (tk : Tk) (monitor_index : Z)
  : list string * Ending :=
  let monitors := get_monitors user32 in
  match monitors with
  | [] => (["No monitors detected."], SysExit 1)
  | _ :: _ =>
    let '(out, chosen) := resolve_monitor monitors monitor_index in
    match chosen with
    | None => (out, Uncaught "IndexError")
    | Some monitor =>
      let left := left monitor in
      let top := top monitor in
      let width := width monitor in
      let height := height monitor in
      match tk_raises tk TkCreate with
      | Some e => (out, Uncaught e)
      | None =>
        let out := out ++ icon_failure_lines tk in
        let geometry := (str_of_int width ++ "x" ++ str_of_int height
                          ++ "+" ++ str_of_int left ++ "+" ++ str_of_int top)%string in
        match first_raise tk [TkOverrideredirect; TkAttributesTopmost;
                              TkConfigureBackground; TkGeometry geometry;
                              TkCanvas width height; TkCanvasPack;
                              TkCanvasConfigure; TkBindAll] with
        | Some e => (out, Uncaught e)
        | None =>
          (out ++ [("Showing black fullscreen on monitor at " ++ str_of_int left
                     ++ "," ++ str_of_int top ++ " " ++ str_of_int width ++ "x"
                     ++ str_of_int height ++ ". Press ESC to close.")%string],
           MainLoop geometry left top width height)
        end
      end
    end
  end.

(** *** Vocabulary for the statements and sample environments *)

(** The dict the callback appends for a monitor whose information was
    obtained. *)
Definition entry_of (mi : MONITORINFO) : Monitor :=
  let r := rcMonitor mi in
  {| left := r_left r; top := r_top r; right := r_right r; bottom := r_bottom r;
     width := r_right r - r_left r; height := r_bottom r - r_top r;
     primary := truthy (Z.land (dwFlags mi) 1) |}.

(** The entries one handle contributes: one, or none when
    [GetMonitorInfoW] reports failure. *)
Definition contribution (user32 : User32) (hMonitor : Z) : list Monitor :=
  let '(res, mi) := GetMonitorInfoW user32 hMonitor in
  if truthy res then [entry_of mi] else [].

(** An environment in which [EnumDisplayMonitors] reports success and the
    only monitor handle it passes to the callback is one whose
    [GetMonitorInfoW] fails. *)
Definition blank_info : MONITORINFO :=
  mkMONITORINFO (mkRECT 0 0 0 0) (mkRECT 0 0 0 0) 0.

Definition user32_no_entries : User32 :=
  {| enum_handles := [65537];
     GetMonitorInfoW := fun _ => (0, blank_info);
     EnumDisplayMonitors_result := 1;
     GetSystemMetrics := fun i => if i =? 0 then 1920 else 1080 |}.

(** An environment in which [EnumDisplayMonitors] reports failure before
    any callback ran. *)
Definition user32_enum_fails : User32 :=
  {| enum_handles := [];
     GetMonitorInfoW := fun _ => (0, blank_info);
     EnumDisplayMonitors_result := 0;
     GetSystemMetrics := fun i => if i =? 0 then 1920 else 1080 |}.

(** Two monitors, the second to the right of the primary one. *)
Definition user32_two : User32 :=
  {| enum_handles := [65537; 65539];
     GetMonitorInfoW := fun h =>
       if h =? 65537
       then (1, mkMONITORINFO (mkRECT 0 0 1920 1080) (mkRECT 0 0 1920 1040) 1)
       else (1, mkMONITORINFO (mkRECT 1920 0 3200 1024) (mkRECT 1920 0 3200 1024) 0);
     EnumDisplayMonitors_result := 1;
     GetSystemMetrics := fun i => if i =? 0 then 1920 else 1080 |}.

(** The notice printed when the index is out of range. *)
Definition fallback_notice (monitor_index : Z) : string :=
  ("Requested monitor " ++ str_of_int monitor_index
     ++ " not found, falling back to primary (0).")%string.

(** *** The command line of the script (lines 175-184) *)

Section CommandLine.

(** Python's [int(s)] for a string [s]: the integer read, or [None] where
    [int] raises ValueError. *)
Variable int_of_str : string -> option Z.

(** The index the [__main__] block passes on: 1, unless a first argument
    is present and reads as an integer. *)
Definition target_index_of_argv (argv : list string) : Z :=
  let target_index := 1 in
  match argv with
  | _ :: arg :: _ =>
    match int_of_str arg with
    | Some n => n
    | None => target_index
    end
  | _ => target_index
  end.

Definition script_main (user32 : User32) (tk : Tk) (argv : list string)
  : list string * Ending :=
  cover_monitor user32 tk (target_index_of_argv argv).

End CommandLine.


(** The rectangle of a monitor as [root.geometry] receives it. *)
Definition geometry_of (m : Monitor) : string :=
  (str_of_int (width m) ++ "x" ++ str_of_int (height m)
     ++ "+" ++ str_of_int (left m) ++ "+" ++ str_of_int (top m))%string.

(** The last line [cover_monitor] prints before entering the main loop. *)
Definition showing_line (m : Monitor) : string :=
  ("Showing black fullscreen on monitor at " ++ str_of_int (left m)
     ++ "," ++ str_of_int (top m) ++ " " ++ str_of_int (width m) ++ "x"
     ++ str_of_int (height m) ++ ". Press ESC to close.")%string.

(** A reader of plain decimal numerals, used where a concrete [int] is
    needed. *)
Definition decimal_int (s : string) : option Z :=
  option_map Z.of_int (NilZero.int_of_string s).

(** The Tk calls after the creation of the root window. *)
Definition window_setup_calls (m : Monitor) : list TkCall :=
  [TkOverrideredirect; TkAttributesTopmost; TkConfigureBackground;
   TkGeometry (geometry_of m); TkCanvas (width m) (height m);
   TkCanvasPack; TkCanvasConfigure; TkBindAll].

(** Every Tk call succeeds and there is no icon.ico. *)
Definition tk_ok : Tk :=
  {| tk_raises := fun _ => None; icon_exists := false;
     iconbitmap_raises := None |}.

(** Every Tk call succeeds but [iconbitmap] rejects the icon.ico that is
    there. *)
Definition tk_icon_rejected : Tk :=
  {| tk_raises := fun _ => None; icon_exists := true;
     iconbitmap_raises := Some "TclError" |}.

(** There is no display: [tk.Tk()] raises. *)
Definition tk_no_display : Tk :=
  {| tk_raises := fun call => match call with
                              | TkCreate => Some "TclError"
                              | _ => None
                              end;
     icon_exists := false; iconbitmap_raises := None |}.

(** One monitor only. *)
Definition user32_single : User32 :=
  {| enum_handles := [65537];
     GetMonitorInfoW := fun _ =>
       (1, mkMONITORINFO (mkRECT 0 0 1920 1080) (mkRECT 0 0 1920 1040) 1);
     EnumDisplayMonitors_result := 1;
     GetSystemMetrics := fun i => if i =? 0 then 1920 else 1080 |}.

End FullscreenBlack.

(* ================================================================== *)
(** ** black_controller.py: the ControllerApp supervisor *)

Module BlackController.

(** *** Exceptions and results *)

(** A raised exception: an instance of the class named [cls] (a subclass of
    [Exception]) whose [str()] is [msg]. *)
Record exn := Exception { cls : string; msg : string }.

Inductive outcome (A : Type) :=
| Ret (a : A)
| Raise (e : exn).
Arguments Ret {A} a.
Arguments Raise {A} e.

(** *** The object and the world around it *)

Inductive tk_state := NORMAL | DISABLED.

(** A [subprocess.Popen] object; only [pid] is read by the controller. *)
Record Popen := mkPopen { pid : Z }.

(** The calls the controller makes to the outside, with their arguments. *)
Inductive Event :=
| EvPopen (cmd : list string) (creationflags : Z)
| EvTerminate (p : Z)
| EvPoll (p : Z)
| EvKill (p : Z)
| EvSleep (milliseconds : Z)
| EvCreateJobObjectW
| EvSetInformationJobObject (hJob info_class limit_flags : Z)
| EvOpenProcess (access p : Z)
| EvAssignProcessToJobObject (hJob hProcess : Z)
| EvCloseHandle (h : Z)
| EvPrint (line : string)
| EvAfter (milliseconds : Z)
| EvRootQuit.

(** The fields of a [ControllerApp] that the supervisor reads or writes,
    and the bookkeeping of the world: the [_poll] callbacks that
    [root.after] has queued and that have not fired yet, the number of
    [Popen.poll()] calls made so far, and the trace of calls. *)
Record ControllerApp := mkApp {
  proc : option Popen;
  _polling : bool;
  _job : option Z;
  status_var : string;
  open_btn : tk_state;
  close_btn : tk_state;
  timers : nat;
  polls : nat;
  trace : list Event }.

Definition set_proc (v : option Popen) (s : ControllerApp) :=
  mkApp v (_polling s) (_job s) (status_var s) (open_btn s) (close_btn s)
        (timers s) (polls s) (trace s).
Definition set_polling (v : bool) (s : ControllerApp) :=
  mkApp (proc s) v (_job s) (status_var s) (open_btn s) (close_btn s)
        (timers s) (polls s) (trace s).
Definition set_job (v : option Z) (s : ControllerApp) :=
  mkApp (proc s) (_polling s) v (status_var s) (open_btn s) (close_btn s)
        (timers s) (polls s) (trace s).
Definition set_status (v : string) (s : ControllerApp) :=
  mkApp (proc s) (_polling s) (_job s) v (open_btn s) (close_btn s)
        (timers s) (polls s) (trace s).
Definition set_open_btn (v : tk_state) (s : ControllerApp) :=
  mkApp (proc s) (_polling s) (_job s) (status_var s) v (close_btn s)
        (timers s) (polls s) (trace s).
Definition set_close_btn (v : tk_state) (s : ControllerApp) :=
  mkApp (proc s) (_polling s) (_job s) (status_var s) (open_btn s) v
        (timers s) (polls s) (trace s).
Definition set_timers (v : nat) (s : ControllerApp) :=
  mkApp (proc s) (_polling s) (_job s) (status_var s) (open_btn s) (close_btn s)
        v (polls s) (trace s).
Definition set_polls (v : nat) (s : ControllerApp) :=
  mkApp (proc s) (_polling s) (_job s) (status_var s) (open_btn s) (close_btn s)
        (timers s) v (trace s).
Definition log (ev : Event) (s : ControllerApp) :=
  mkApp (proc s) (_polling s) (_job s) (status_var s) (open_btn s) (close_btn s)
        (timers s) (polls s) (trace s ++ [ev]).

(** What [__init__] leaves (lines 177, 174, 191-193). *)
Definition init : ControllerApp :=
  {| proc := None; _polling := false; _job := None;
     status_var := "Status: closed";
     open_btn := NORMAL; close_btn := DISABLED;
     timers := 0; polls := 0; trace := [] |}.

(** The answers of the operating system, of the interpreter and of Tk.
    An answer of type [outcome A] is a returned value or a raised
    exception.  [poll_answer n] answers the [n]-th call of [Popen.poll()]
    ([None]: the child is still running; [Some code]: it has exited). *)
Record OS := mkOS {
  have_job : bool;
  platform_win32 : bool;
  frozen : bool;
  sys_executable : string;
  script : string;
  monitor_var_get : outcome Z;
  subprocess_Popen : list string -> outcome Z;
  poll_answer : nat -> outcome (option Z);
  terminate_answer : outcome unit;
  kill_answer : outcome unit;
  CreateJobObjectW : outcome Z;
  SetInformationJobObject : Z -> outcome Z;
  OpenProcess : Z -> outcome Z;
  AssignProcessToJobObject : Z -> Z -> outcome Z;
  CloseHandle : Z -> outcome Z }.

(** *** A state-and-exception monad for method bodies *)

Definition M (A : Type) : Type := ControllerApp -> outcome A * ControllerApp.

Definition ret {A} (a : A) : M A := fun s => (Ret a, s).
Definition raise {A} (e : exn) : M A := fun s => (Raise e, s).
Definition bind {A B} (m : M A) (k : A -> M B) : M B :=
  fun s => match m s with
           | (Ret a, s') => k a s'
           | (Raise e, s') => (Raise e, s')
           end.
Definition get : M ControllerApp := fun s => (Ret s, s).
Definition modify (f : ControllerApp -> ControllerApp) : M unit :=
  fun s => (Ret tt, f s).

(** [try: body / except Exception: handler]. *)
Definition try_except {A} (body : M A) (handler : exn -> M A) : M A :=
  fun s => match body s with
           | (Ret a, s') => (Ret a, s')
           | (Raise e, s') => handler e s'
           end.

(** [try: body / finally: final]: [final] always runs; what it raises
    replaces the result of [body]. *)
Definition try_finally {A} (body : M A) (final : M unit) : M A :=
  fun s => match body s with
           | (r, s') => match final s' with
                        | (Ret _, s'') => (r, s'')
                        | (Raise e, s'') => (Raise e, s'')
                        end
           end.

(** An outside call: logged, then answered. *)
Definition call {A} (ev : Event) (answer : outcome A) : M A :=
  fun s => (answer, log ev s).

Declare Scope monad_scope.
Delimit Scope monad_scope with monad.
Notation "x <- c1 ;; c2" := (bind c1 (fun x => c2))
  (at level 61, c1 at next level, right associativity) : monad_scope.
Notation "c1 ;; c2" := (bind c1 (fun _ => c2))
  (at level 61, right associativity) : monad_scope.
Local Open Scope monad_scope.

(** *** The methods *)

(** [self._clear_proc()] (lines 322 and 340).  [ControllerApp] has no base
    class and no [__getattr__]; neither the class body nor [__init__]
    binds the name [_clear_proc], and nothing else in the repository does.
    The attribute lookup therefore raises [AttributeError] before anything
    is called. *)
Definition attribute_error : exn :=
  Exception "AttributeError"
            "'ControllerApp' object has no attribute '_clear_proc'".

Definition _clear_proc : M unit := raise attribute_error.

Section Methods.

Variable os : OS.

Definition is_frozen : bool := frozen os.

Definition _get_child_command (index : Z) : list string :=
  if is_frozen
  then [sys_executable os; "--child"; str_of_int index]
  else [sys_executable os; script os; str_of_int index].

Definition Popen_poll (p : Popen) : M (option Z) :=
  fun s => (poll_answer os (polls s),
            set_polls (S (polls s)) (log (EvPoll (pid p)) s)).

Definition Popen_terminate (p : Popen) : M unit :=
  call (EvTerminate (pid p)) (terminate_answer os).

Definition Popen_kill (p : Popen) : M unit :=
  call (EvKill (pid p)) (kill_answer os).

(** [time.sleep(0.1)], the duration written in milliseconds. *)
Definition time_sleep_tenth : M unit := call (EvSleep 100) (Ret tt).

(** [self.root.after(ms, self._poll)]: one more queued callback. *)
Definition root_after (ms : Z) : M unit :=
  fun s => (Ret tt, set_timers (S (timers s)) (log (EvAfter ms) s)).

Definition running_status (p : Popen) : string :=
  ("Status: running (pid=" ++ str_of_int (pid p) ++ ")")%string.

Definition JOB_OBJECT_LIMIT_KILL_ON_JOB_CLOSE : Z := 0x2000.
Definition JobObjectExtendedLimitInformation : Z := 9.
Definition PROCESS_ALL_ACCESS : Z := 0x1F0FFF.

(** Lines 232-295 of [open_black]: the Job Object block with its own
    try/except. *)
Definition attach_job (p : Popen) : M unit :=
  if have_job os && platform_win32 os then
    try_except
      (hJob <- call EvCreateJobObjectW (CreateJobObjectW os) ;;
       if truthy hJob then
         res <- call (EvSetInformationJobObject hJob
                        JobObjectExtendedLimitInformation
                        JOB_OBJECT_LIMIT_KILL_ON_JOB_CLOSE)
                     (SetInformationJobObject os hJob) ;;
         if truthy res then
           hProcess <- call (EvOpenProcess PROCESS_ALL_ACCESS (pid p))
                            (OpenProcess os (pid p)) ;;
           if truthy hProcess then
             ok <- call (EvAssignProcessToJobObject hJob hProcess)
                        (AssignProcessToJobObject os hJob hProcess) ;;
             if truthy ok then modify (set_job (Some hJob))
             else (call (EvCloseHandle hJob) (CloseHandle os hJob) ;; ret tt)
           else ret tt
         else (call (EvCloseHandle hJob) (CloseHandle os hJob) ;; ret tt)
       else ret tt)
      (fun _ => call (EvPrint "Failed to set job object") (Ret tt))
  else ret tt.

(** [_poll] (lines 337-346).  The early [return] of the exit branch is the
    [true] of [exited]; every other path reaches [root.after]. *)
Definition _poll : M unit :=
  self <- get ;;
  exited <- match proc self with
            | Some p =>
              r <- Popen_poll p ;;
              match r with
              | Some _ => _clear_proc ;; modify (set_polling false) ;; ret true
              | None => modify (set_status (running_status p)) ;; ret false
              end
            | None => ret false
            end ;;
  if exited : bool then ret tt else root_after 500.

Definition _start_polling : M unit :=
  self <- get ;;
  if _polling self then ret tt
  else modify (set_polling true) ;; _poll.

(** [open_black] (lines 219-304).  The try block yields the Popen object
    when it ran through and [None] when the handler returned. *)
Definition open_black : M unit :=
  self <- get ;;
  match proc self with
  | Some _ => ret tt
  | None =>
    index <- (fun s => (monitor_var_get os, s)) ;;
    let cmd := _get_child_command index in
    started <- try_except
                 (child <- call (EvPopen cmd 0) (subprocess_Popen os cmd) ;;
                  let p := mkPopen child in
                  modify (set_proc (Some p)) ;;
                  attach_job p ;;
                  ret (Some p))
                 (fun e =>
                    modify (set_status ("Failed to start: " ++ msg e)%string) ;;
                    modify (set_proc None) ;;
                    ret None) ;;
    match started with
    | None => ret tt
    | Some p =>
      modify (set_status (running_status p)) ;;
      modify (set_open_btn DISABLED) ;;
      modify (set_close_btn NORMAL) ;;
      _start_polling
    end
  end.

(** The [for _ in range(10)] loop of [close_black]. *)
Fixpoint wait_loop (p : Popen) (n : nat) : M unit :=
  match n with
  | O => ret tt
  | S n' =>
    r <- Popen_poll p ;;
    match r with
    | Some _ => ret tt
    | None => time_sleep_tenth ;; wait_loop p n'
    end
  end.

(** Lines 309-320: the try/except part of [close_black]. *)
Definition terminate_wait_kill (p : Popen) : M unit :=
  try_except
    (Popen_terminate p ;;
     wait_loop p 10 ;;
     r <- Popen_poll p ;;
     match r with
     | None => Popen_kill p
     | Some _ => ret tt
     end)
    (fun _ => ret tt).

(** Lines 324-329: closing the job handle. *)
Definition release_job : M unit :=
  self <- get ;;
  match _job self with
  | Some h =>
    if truthy h then
      try_except (call (EvCloseHandle h) (CloseHandle os h) ;; ret tt)
                 (fun _ => ret tt) ;;
      modify (set_job None)
    else ret tt
  | None => ret tt
  end.

(** [close_black] (lines 306-329).  A Popen object is always truthy, so
    [not self.proc] holds exactly when [self.proc] is [None]. *)
Definition close_black : M unit :=
  self <- get ;;
  match proc self with
  | None => ret tt
  | Some p =>
    try_finally (terminate_wait_kill p) _clear_proc ;;
    release_job
  end.

Definition quit : M unit :=
  close_black ;; call EvRootQuit (Ret tt).

(** A queued [_poll] callback fires: Tk takes it off the queue and calls it. *)
Definition timer_fires : M unit :=
  fun s => _poll (set_timers (pred (timers s)) s).

End Methods.

(** *** Reachable states *)

(** What the user and the Tk event loop can make the object do.  An
    exception that leaves a callback is reported by Tk and the event loop
    goes on, so the state at the raise is the state the next callback
    sees. *)
Inductive step : ControllerApp -> ControllerApp -> Prop :=
| step_open os s : step s (snd (open_black os s))
| step_close os s : step s (snd (close_black os s))
| step_quit os s : step s (snd (quit os s))
| step_timer os s : (0 < timers s)%nat -> step s (snd (timer_fires os s)).

Inductive reachable : ControllerApp -> Prop :=
| reach_init : reachable init
| reach_step s s' : reachable s -> step s s' -> reachable s'.

(** The supervisor states as the object encodes them. *)
Definition Idle (s : ControllerApp) : Prop := proc s = None /\ _job s = None.
Definition Running (s : ControllerApp) : Prop := proc s <> None.

(** *** Vocabulary for the statements *)

(** [s'] differs from [s] at most in the call counter and the trace. *)
Definition same_object (s s' : ControllerApp) : Prop :=
  proc s' = proc s /\ _polling s' = _polling s /\ _job s' = _job s /\
  status_var s' = status_var s /\ open_btn s' = open_btn s /\
  close_btn s' = close_btn s /\ timers s' = timers s.

(** [s'] differs from [s] at most in the job handle and the trace. *)
Definition same_but_job (s s' : ControllerApp) : Prop :=
  proc s' = proc s /\ _polling s' = _polling s /\
  status_var s' = status_var s /\ open_btn s' = open_btn s /\
  close_btn s' = close_btn s /\ timers s' = timers s /\ polls s' = polls s.

(** [s'] holds the same child and the same job handle as [s]. *)
Definition same_handles (s s' : ControllerApp) : Prop :=
  proc s' = proc s /\ _job s' = _job s.

(** What holds of every reachable object that holds no child: it holds no
    job handle either, the poller is not marked as started and no [_poll]
    callback is queued. *)
Definition quiet_when_idle (s : ControllerApp) : Prop :=
  proc s = None -> _job s = None /\ _polling s = false /\ timers s = 0%nat.

(** Every run of [m] relates the state before to the state after by [R],
    whether it returns or raises. *)
Definition preserves {A} (R : ControllerApp -> ControllerApp -> Prop)
  (m : M A) : Prop :=
  forall s, R s (snd (m s)).

(** Going from [s] to [s'], one handle of the pair was let go while the
    other one is still held. *)
Definition released_alone (s s' : ControllerApp) : Prop :=
  (proc s <> None /\ proc s' = None /\ _job s' <> None) \/
  (_job s <> None /\ _job s' = None /\ proc s' <> None).

(** The ways in which the Job Object block can fail for the child [child]:
    creating the job, configuring it, opening the process or assigning it
    returns a false value or raises. *)
Inductive job_failure (os : OS) (child : Z) : Prop :=
| create_raises e :
    CreateJobObjectW os = Raise e -> job_failure os child
| create_null h :
    CreateJobObjectW os = Ret h -> truthy h = false -> job_failure os child
| configure_raises h e :
    CreateJobObjectW os = Ret h ->
    SetInformationJobObject os h = Raise e -> job_failure os child
| configure_fails h res :
    CreateJobObjectW os = Ret h ->
    SetInformationJobObject os h = Ret res -> truthy res = false ->
    job_failure os child
| open_process_raises h res e :
    CreateJobObjectW os = Ret h ->
    SetInformationJobObject os h = Ret res ->
    OpenProcess os child = Raise e -> job_failure os child
| open_process_null h res hProcess :
    CreateJobObjectW os = Ret h ->
    SetInformationJobObject os h = Ret res ->
    OpenProcess os child = Ret hProcess -> truthy hProcess = false ->
    job_failure os child
| assign_raises h res hProcess e :
    CreateJobObjectW os = Ret h ->
    SetInformationJobObject os h = Ret res ->
    OpenProcess os child = Ret hProcess ->
    AssignProcessToJobObject os h hProcess = Raise e -> job_failure os child
| assign_fails h res hProcess ok :
    CreateJobObjectW os = Ret h ->
    SetInformationJobObject os h = Ret res ->
    OpenProcess os child = Ret hProcess ->
    AssignProcessToJobObject os h hProcess = Ret ok -> truthy ok = false ->
    job_failure os child.

(** The result of [open_black] once the child exists: decided by the
    first liveness check alone. *)
Definition first_check_result (answer : outcome (option Z)) : outcome unit :=
  match answer with
  | Ret None => Ret tt
  | Ret (Some _) => Raise attribute_error
  | Raise e => Raise e
  end.

(** Total time slept in a trace, in milliseconds. *)
Fixpoint sleep_total (tr : list Event) : Z :=
  match tr with
  | [] => 0
  | EvSleep ms :: tr' => ms + sleep_total tr'
  | _ :: tr' => sleep_total tr'
  end.

Definition is_CloseHandle (ev : Event) : bool :=
  match ev with EvCloseHandle _ => true | _ => false end.

Definition is_poll_or_sleep (p : Z) (ev : Event) : Prop :=
  ev = EvPoll p \/ ev = EvSleep 100.

(** Ten rounds of poll-then-sleep. *)
Fixpoint poll_sleep_rounds (p : Z) (n : nat) : list Event :=
  match n with
  | O => []
  | S n' => EvPoll p :: EvSleep 100 :: poll_sleep_rounds p n'
  end.

(** *** Sample environments and states *)

(** Every call succeeds and the child keeps running. *)
Definition os_alive : OS :=
  {| have_job := true; platform_win32 := true; frozen := false;
     sys_executable := "python.exe"; script := "fullscreen_black.py";
     monitor_var_get := Ret 1;
     subprocess_Popen := fun _ => Ret 4242;
     poll_answer := fun _ => Ret None;
     terminate_answer := Ret tt; kill_answer := Ret tt;
     CreateJobObjectW := Ret 77;
     SetInformationJobObject := fun _ => Ret 1;
     OpenProcess := fun _ => Ret 88;
     AssignProcessToJobObject := fun _ _ => Ret 1;
     CloseHandle := fun _ => Ret 1 |}.

(** As [os_alive], but the child has exited with status 0. *)
Definition os_exited : OS :=
  {| have_job := true; platform_win32 := true; frozen := false;
     sys_executable := "python.exe"; script := "fullscreen_black.py";
     monitor_var_get := Ret 1;
     subprocess_Popen := fun _ => Ret 4242;
     poll_answer := fun _ => Ret (Some 0);
     terminate_answer := Ret tt; kill_answer := Ret tt;
     CreateJobObjectW := Ret 77;
     SetInformationJobObject := fun _ => Ret 1;
     OpenProcess := fun _ => Ret 88;
     AssignProcessToJobObject := fun _ _ => Ret 1;
     CloseHandle := fun _ => Ret 1 |}.

(** The child process cannot be created. *)
Definition os_popen_fails : OS :=
  {| have_job := true; platform_win32 := true; frozen := true;
     sys_executable := "black_controller.exe"; script := "fullscreen_black.py";
     monitor_var_get := Ret 1;
     subprocess_Popen := fun _ =>
       Raise (Exception "FileNotFoundError"
                        "[WinError 2] The system cannot find the file specified");
     poll_answer := fun _ => Ret None;
     terminate_answer := Ret tt; kill_answer := Ret tt;
     CreateJobObjectW := Ret 77;
     SetInformationJobObject := fun _ => Ret 1;
     OpenProcess := fun _ => Ret 88;
     AssignProcessToJobObject := fun _ _ => Ret 1;
     CloseHandle := fun _ => Ret 1 |}.

(** The child is created and keeps running, but the job cannot be
    configured. *)
Definition os_job_fails : OS :=
  {| have_job := true; platform_win32 := true; frozen := false;
     sys_executable := "python.exe"; script := "fullscreen_black.py";
     monitor_var_get := Ret 1;
     subprocess_Popen := fun _ => Ret 4242;
     poll_answer := fun _ => Ret None;
     terminate_answer := Ret tt; kill_answer := Ret tt;
     CreateJobObjectW := Ret 77;
     SetInformationJobObject := fun _ => Ret 0;
     OpenProcess := fun _ => Ret 88;
     AssignProcessToJobObject := fun _ _ => Ret 1;
     CloseHandle := fun _ => Ret 1 |}.

(** The object after one successful [open_black] from the initial state:
    child 4242 and job handle 77 are held, one [_poll] callback is queued. *)
Definition running_with_job : ControllerApp :=
  {| proc := Some (mkPopen 4242); _polling := true; _job := Some 77;
     status_var := "Status: running (pid=4242)";
     open_btn := DISABLED; close_btn := NORMAL;
     timers := 1; polls := 1;
     trace := [EvPopen ["python.exe"; "fullscreen_black.py"; "1"] 0;
               EvCreateJobObjectW; EvSetInformationJobObject 77 9 8192;
               EvOpenProcess 2035711 4242; EvAssignProcessToJobObject 77 88;
               EvPoll 4242; EvAfter 500] |}.

(** *** Child mode and the entry point (lines 131-147 and 353-365) *)

(** [l.index(x)]: the position of the first element equal to [x], or
    [None] where Python raises ValueError. *)
Fixpoint list_index (x : string) (l : list string) : option nat :=
  match l with
  | [] => None
  | y :: l' => if String.eqb y x then Some O
               else option_map S (list_index x l')
  end.

Section ChildMode.

(** Python's [int(s)], as in [FullscreenBlack]. *)
Variable int_of_str : string -> option Z.

Definition invalid_index_notice : string :=
  "Invalid monitor index; falling back to 1.".

(** The try/except of [run_child_mode_from_args]: the lines printed and
    the index passed on. *)
Definition child_mode_index (argv : list string) : list string * Z :=
  let idx := 1 in
  match list_index "--child" argv with
  | None => ([invalid_index_notice], idx)
  | Some i =>
    match nth_error argv (i + 1) with
    | None => ([], idx)
    | Some arg =>
      match int_of_str arg with
      | Some n => ([], n)
      | None => ([invalid_index_notice], idx)
      end
    end
  end.

Definition run_child_mode_from_args (user32 : FullscreenBlack.User32)
  (tk : FullscreenBlack.Tk) (argv : list string)
  : list string * FullscreenBlack.Ending :=
  let '(printed, idx) := child_mode_index argv in
  let '(out, ending) := FullscreenBlack.cover_monitor user32 tk idx in
  (printed ++ out, ending).

(** What [main] turns the process into.  In the controller branch the
    AppUserModelID and icon calls made before [ControllerApp(root)] leave
    the supervisor's fields alone; the branch is the freshly built
    object. *)
Inductive Started :=
| ChildMode (printed : list string) (ending : FullscreenBlack.Ending)
| ControllerMode (app : ControllerApp).

Definition main (user32 : FullscreenBlack.User32) (tk : FullscreenBlack.Tk)
  (argv : list string) : Started :=
  if existsb (String.eqb "--child") argv
  then let '(printed, ending) := run_child_mode_from_args user32 tk argv in
       ChildMode printed ending
  else ControllerMode init.

End ChildMode.

(** [set_app_user_model_id] (lines 46-66): the returned pair and the IDs
    handed to the shell.  [stem] is [Path(...).stem]; [shell] answers
    [SetCurrentProcessExplicitAppUserModelID]. *)
Definition set_app_user_model_id (stem : string -> string)
  (shell : string -> outcome unit) (os : OS) (appid : option string)
  : (option string * bool) * list string :=
  if negb (platform_win32 os) then ((None, false), [])
  else
    let appid :=
      match appid with
      | None => if is_frozen os
                then ("com." ++ stem (sys_executable os))%string
                else "com.blackcontroller.dev"
      | Some given => given
      end in
    match shell appid with
    | Ret _ => ((Some appid, true), [appid])
    | Raise _ =>
      ((if String.eqb appid "" then None else Some appid, false), [appid])
    end.

(** *** More vocabulary and samples *)

(** Any number of steps. *)
Inductive steps : ControllerApp -> ControllerApp -> Prop :=
| steps_refl s : steps s s
| steps_more s1 s2 s3 : steps s1 s2 -> step s2 s3 -> steps s1 s3.

(** What every reachable object satisfies: at most one [_poll] callback
    is queued, and the poller flag, the status line and the two buttons
    agree with whether a child is held. *)
Definition consistent (s : ControllerApp) : Prop :=
  (timers s <= 1)%nat /\
  match proc s with
  | Some p =>
    _polling s = true /\ status_var s = running_status p /\
    open_btn s = DISABLED /\ close_btn s = NORMAL
  | None =>
    timers s = 0%nat /\ _polling s = false /\ _job s = None /\
    open_btn s = NORMAL /\ close_btn s = DISABLED /\
    (status_var s = "Status: closed" \/
     exists e, status_var s = ("Failed to start: " ++ msg e)%string)
  end.

(** The events of one run of the Job Object block in which every call
    succeeds. *)
Definition job_attached_events (child hJob hProcess : Z) : list Event :=
  [EvCreateJobObjectW;
   EvSetInformationJobObject hJob JobObjectExtendedLimitInformation
     JOB_OBJECT_LIMIT_KILL_ON_JOB_CLOSE;
   EvOpenProcess PROCESS_ALL_ACCESS child;
   EvAssignProcessToJobObject hJob hProcess].

(** The spinbox holds text that is not a number. *)
Definition os_spinbox_invalid : OS :=
  {| have_job := true; platform_win32 := true; frozen := false;
     sys_executable := "python.exe"; script := "fullscreen_black.py";
     monitor_var_get :=
       Raise (Exception "TclError" "expected floating-point number but got abc");
     subprocess_Popen := fun _ => Ret 4242;
     poll_answer := fun _ => Ret None;
     terminate_answer := Ret tt; kill_answer := Ret tt;
     CreateJobObjectW := Ret 77;
     SetInformationJobObject := fun _ => Ret 1;
     OpenProcess := fun _ => Ret 88;
     AssignProcessToJobObject := fun _ _ => Ret 1;
     CloseHandle := fun _ => Ret 1 |}.

Definition is_kill (ev : Event) : bool :=
  match ev with EvKill _ => true | _ => false end.

(** [terminate()] itself raises. *)
Definition os_terminate_raises : OS :=
  {| have_job := true; platform_win32 := true; frozen := false;
     sys_executable := "python.exe"; script := "fullscreen_black.py";
     monitor_var_get := Ret 1;
     subprocess_Popen := fun _ => Ret 4242;
     poll_answer := fun _ => Ret None;
     terminate_answer :=
       Raise (Exception "PermissionError" "[WinError 5] Access is denied");
     kill_answer := Ret tt;
     CreateJobObjectW := Ret 77;
     SetInformationJobObject := fun _ => Ret 1;
     OpenProcess := fun _ => Ret 88;
     AssignProcessToJobObject := fun _ _ => Ret 1;
     CloseHandle := fun _ => Ret 1 |}.

(** The child is seen running by the polls numbered 0 to 3 and has exited
    with status 0 from poll 4 on. *)
Definition os_exits_during_grace : OS :=
  {| have_job := true; platform_win32 := true; frozen := false;
     sys_executable := "python.exe"; script := "fullscreen_black.py";
     monitor_var_get := Ret 1;
     subprocess_Popen := fun _ => Ret 4242;
     poll_answer := fun n => if (n <? 4)%nat then Ret None else Ret (Some 0);
     terminate_answer := Ret tt; kill_answer := Ret tt;
     CreateJobObjectW := Ret 77;
     SetInformationJobObject := fun _ => Ret 1;
     OpenProcess := fun _ => Ret 88;
     AssignProcessToJobObject := fun _ _ => Ret 1;
     CloseHandle := fun _ => Ret 1 |}.

(** The job is created and configured, but the child cannot be opened. *)
Definition os_open_process_fails : OS :=
  {| have_job := true; platform_win32 := true; frozen := false;
     sys_executable := "python.exe"; script := "fullscreen_black.py";
     monitor_var_get := Ret 1;
     subprocess_Popen := fun _ => Ret 4242;
     poll_answer := fun _ => Ret None;
     terminate_answer := Ret tt; kill_answer := Ret tt;
     CreateJobObjectW := Ret 77;
     SetInformationJobObject := fun _ => Ret 1;
     OpenProcess := fun _ => Ret 0;
     AssignProcessToJobObject := fun _ _ => Ret 1;
     CloseHandle := fun _ => Ret 1 |}.

(** Not on Windows. *)
Definition os_posix : OS :=
  {| have_job := true; platform_win32 := false; frozen := false;
     sys_executable := "/usr/bin/python3"; script := "fullscreen_black.py";
     monitor_var_get := Ret 0;
     subprocess_Popen := fun _ => Ret 4242;
     poll_answer := fun _ => Ret None;
     terminate_answer := Ret tt; kill_answer := Ret tt;
     CreateJobObjectW := Ret 77;
     SetInformationJobObject := fun _ => Ret 1;
     OpenProcess := fun _ => Ret 88;
     AssignProcessToJobObject := fun _ _ => Ret 1;
     CloseHandle := fun _ => Ret 1 |}.

End BlackController.

(* ================================================================== *)
(** ** black_controller.py: set_window_icon_for_tk (lines 69-128) *)

Module WindowIcon.
Import BlackController.

(** The dict the function returns. *)
Record IconStatus := mkIconStatus {
  used_icon_file : bool;
  extracted_exe_icon : bool;
  sent : bool }.

Definition nothing_done : IconStatus := mkIconStatus false false false.

(** The Win32 calls the function makes, with the arguments that matter.
    A [c_void_p.value] is [None] for a null pointer. *)
Inductive Call :=
| CallLoadImageW (path : string) (image_type flags : Z)
| CallSendMessageW (hwnd msg wparam lparam : Z)
| CallExtractIconExW (exe : string)
| CallSetClassLongPtrW (hwnd index : Z) (value : option Z)
| CallSetClassLongW (hwnd index : Z) (value : option Z).

(** What the platform answers.  [ExtractIconExW] answers its result
    together with the values left in [phicon_large] and [phicon_small];
    [SetClassLong] answers both spellings of the call. *)
Record IconEnv := mkIconEnv {
  on_win32 : bool;
  ico : string;
  winfo_id : outcome Z;
  ico_exists : outcome bool;
  LoadImageW : outcome Z;
  SendMessageW : Z -> Z -> outcome Z;
  running_frozen : bool;
  executable : string;
  ExtractIconExW : outcome (Z * option Z * option Z);
  has_SetClassLongPtrW : bool;
  SetClassLong : Z -> option Z -> outcome Z }.

Definition LR_LOADFROMFILE : Z := 0x10.
Definition IMAGE_ICON : Z := 1.
Definition WM_SETICON : Z := 0x80.
Definition ICON_SMALL : Z := 0.
Definition ICON_BIG : Z := 1.
Definition GCLP_HICON : Z := -14.
Definition GCLP_HICONSM : Z := -34.

(** Truthiness of a [c_void_p.value]. *)
Definition value_truthy (v : option Z) : bool :=
  match v with
  | Some n => truthy n
  | None => false
  end.

Definition value_or_zero (v : option Z) : Z :=
  match v with
  | Some n => n
  | None => 0
  end.

(** A trace-and-exception monad for the body of the function. *)
Definition W (A : Type) : Type := list Call -> outcome A * list Call.

Definition retW {A} (a : A) : W A := fun tr => (Ret a, tr).
Definition bindW {A B} (m : W A) (k : A -> W B) : W B :=
  fun tr => match m tr with
            | (Ret a, tr') => k a tr'
            | (Raise e, tr') => (Raise e, tr')
            end.
Definition askW {A} (answer : outcome A) : W A := fun tr => (answer, tr).
Definition callW {A} (c : Call) (answer : outcome A) : W A :=
  fun tr => (answer, tr ++ [c]).
Definition tryW {A} (body : W A) (handler : exn -> W A) : W A :=
  fun tr => match body tr with
            | (Ret a, tr') => (Ret a, tr')
            | (Raise e, tr') => handler e tr'
            end.

Declare Scope icon_scope.
Delimit Scope icon_scope with icon.
Notation "x <- c1 ;; c2" := (bindW c1 (fun x => c2))
  (at level 61, c1 at next level, right associativity) : icon_scope.
Notation "c1 ;; c2" := (bindW c1 (fun _ => c2))
  (at level 61, right associativity) : icon_scope.
Local Open Scope icon_scope.

Section Icon.

Variable env : IconEnv.

Definition send_icon (hwnd which hicon : Z) : W Z :=
  callW (CallSendMessageW hwnd WM_SETICON which hicon)
        (SendMessageW env which hicon).

(** Lines 83-91: the icon file.  [true] stands for the early return. *)
Definition try_icon_file (hwnd : Z) : W bool :=
  there <- askW (ico_exists env) ;;
  if there : bool then
    hicon <- callW (CallLoadImageW (ico env) IMAGE_ICON LR_LOADFROMFILE)
                   (LoadImageW env) ;;
    if truthy hicon then
      send_icon hwnd ICON_SMALL hicon ;;
      send_icon hwnd ICON_BIG hicon ;;
      retW true
    else retW false
  else retW false.

(** Lines 110-122: the class icons, in a try/except of their own. *)
Definition set_class_icons (hwnd : Z) (large small : option Z) : W unit :=
  let small_or_large := if value_truthy small then small else large in
  tryW
    (if has_SetClassLongPtrW env then
       callW (CallSetClassLongPtrW hwnd GCLP_HICON large)
             (SetClassLong env GCLP_HICON large) ;;
       callW (CallSetClassLongPtrW hwnd GCLP_HICONSM small_or_large)
             (SetClassLong env GCLP_HICONSM small_or_large) ;;
       retW tt
     else
       callW (CallSetClassLongW hwnd GCLP_HICON large)
             (SetClassLong env GCLP_HICON large) ;;
       callW (CallSetClassLongW hwnd GCLP_HICONSM small_or_large)
             (SetClassLong env GCLP_HICONSM small_or_large) ;;
       retW tt)
    (fun _ => retW tt).

(** Lines 94-123: the icon of the executable. *)
Definition try_exe_icon (hwnd : Z) : W IconStatus :=
  if running_frozen env then
    extracted <- callW (CallExtractIconExW (executable env))
                       (ExtractIconExW env) ;;
    let '(res, large, small) := extracted in
    if 0 <? res then
      sent_small <- (if value_truthy small
                     then send_icon hwnd ICON_SMALL (value_or_zero small) ;;
                          retW true
                     else retW false) ;;
      sent <- (if value_truthy large
               then send_icon hwnd ICON_BIG (value_or_zero large) ;;
                    retW true
               else retW sent_small) ;;
      set_class_icons hwnd large small ;;
      retW (mkIconStatus false true sent)
    else retW nothing_done
  else retW nothing_done.

(** The body of the outer try. *)
Definition icon_body : W IconStatus :=
  hwnd <- askW (winfo_id env) ;;
  from_file <- try_icon_file hwnd ;;
  if from_file : bool then retW (mkIconStatus true false true)
  else try_exe_icon hwnd.

(** [set_window_icon_for_tk]: the dict returned and the calls made. *)
Definition set_window_icon_for_tk : IconStatus * list Call :=
  if negb (on_win32 env) then (nothing_done, [])
  else match icon_body [] with
       | (Ret status, calls) => (status, calls)
       | (Raise _, calls) => (nothing_done, calls)
       end.

End Icon.

Definition is_set_icon_message (c : Call) : bool :=
  match c with
  | CallSendMessageW _ msg _ _ => msg =? WM_SETICON
  | _ => false
  end.

Definition is_extract_call (c : Call) : bool :=
  match c with
  | CallExtractIconExW _ => true
  | _ => false
  end.

(** icon.ico is present and loads as handle 501. *)
Definition env_icon_file : IconEnv :=
  {| on_win32 := true; ico := "icon.ico";
     winfo_id := Ret 1312;
     ico_exists := Ret true;
     LoadImageW := Ret 501;
     SendMessageW := fun _ _ => Ret 0;
     running_frozen := true; executable := "black_controller.exe";
     ExtractIconExW := Ret (2, Some 601, Some 602);
     has_SetClassLongPtrW := true;
     SetClassLong := fun _ _ => Ret 0 |}.

(** No icon.ico; the frozen executable carries a large icon only. *)
Definition env_exe_icon : IconEnv :=
  {| on_win32 := true; ico := "icon.ico";
     winfo_id := Ret 1312;
     ico_exists := Ret false;
     LoadImageW := Ret 0;
     SendMessageW := fun _ _ => Ret 0;
     running_frozen := true; executable := "black_controller.exe";
     ExtractIconExW := Ret (1, Some 601, None);
     has_SetClassLongPtrW := true;
     SetClassLong := fun _ _ => Ret 0 |}.

End WindowIcon.

(* ================================================================== *)
(** ** Properties of fullscreen_black.py *)

Module FullscreenBlackFacts.
Import FullscreenBlack.

Lemma _callback_appends user32 monitors h :
  _callback user32 monitors h = monitors ++ contribution user32 h.
Proof.
  unfold _callback, contribution, entry_of.
  destruct (GetMonitorInfoW user32 h) as [res mi].
  destruct (truthy res); cbn [negb]; [reflexivity | now rewrite app_nil_r].
Qed.

Lemma fold_callback user32 hs : forall acc,
  fold_left (_callback user32) hs acc = acc ++ flat_map (contribution user32) hs.
Proof.
  induction hs as [|h hs IH]; intro acc; cbn [fold_left flat_map].
  - now rewrite app_nil_r.
  - rewrite IH, _callback_appends, <- app_assoc. reflexivity.
Qed.

(** The callback keeps one entry per handle whose [GetMonitorInfoW]
    succeeded, in enumeration order. *)
Lemma enumerated_spec user32 :
  enumerated user32 = flat_map (contribution user32) (enum_handles user32).
Proof. unfold enumerated. now rewrite fold_callback. Qed.

Lemma enumerated_length user32 :
  (List.length (enumerated user32) <= List.length (enum_handles user32))%nat.
Proof.
  rewrite enumerated_spec.
  induction (enum_handles user32) as [|h hs IH]; cbn [flat_map List.length].
  - lia.
  - rewrite length_app. unfold contribution at 1.
    destruct (GetMonitorInfoW user32 h) as [res mi].
    destruct (truthy res); cbn [List.length]; lia.
Qed.

Example get_monitors_two :
  get_monitors user32_two =
  [ mkMonitor 0 0 1920 1080 1920 1080 true;
    mkMonitor 1920 0 3200 1024 1280 1024 false ].
Proof. reflexivity. Qed.

(** C1, as stated, fails: when [EnumDisplayMonitors] reports success and
    the callback collected no entry, [get_monitors] returns the empty
    list. *)
Lemma get_monitors_can_be_empty :
  truthy (EnumDisplayMonitors_result user32_no_entries) = true /\
  get_monitors user32_no_entries = [].
Proof. split; reflexivity. Qed.

(** C1, amended.  When the native enumeration call reports failure,
    [get_monitors] returns the entries the callback collected followed by
    one synthetic entry (0, 0, w, h, primary) built from
    [GetSystemMetrics]: a non-empty list, and exactly that entry when the
    callback collected none.  When the call reports success it returns
    exactly the collected entries, hence the empty list when there are
    none. *)
Theorem get_monitors_fallback (user32 : User32) :
  (EnumDisplayMonitors_result user32 = 0 ->
     get_monitors user32 = enumerated user32 ++ [fallback_entry user32] /\
     get_monitors user32 <> [] /\
     (enumerated user32 = [] -> get_monitors user32 = [fallback_entry user32]) /\
     fallback_entry user32 =
       mkMonitor 0 0 (GetSystemMetrics user32 0) (GetSystemMetrics user32 1)
                 (GetSystemMetrics user32 0) (GetSystemMetrics user32 1) true) /\
  (EnumDisplayMonitors_result user32 <> 0 ->
     get_monitors user32 = enumerated user32 /\
     (enumerated user32 = [] -> get_monitors user32 = [])).
Proof.
  unfold get_monitors, truthy. split; intro H.
  - rewrite H. cbn [Z.eqb negb]. repeat split.
    + intro E. destruct (enumerated user32); discriminate E.
    + intro E. now rewrite E.
  - apply Z.eqb_neq in H. rewrite H. cbn [negb]. split; [reflexivity | tauto].
Qed.

Lemma get_monitors_fallback_witness :
  (EnumDisplayMonitors_result user32_enum_fails = 0 /\
   get_monitors user32_enum_fails = [mkMonitor 0 0 1920 1080 1920 1080 true]) /\
  (EnumDisplayMonitors_result user32_two <> 0 /\
   get_monitors user32_two = enumerated user32_two).
Proof.
  split.
  - split; [reflexivity|].
    destruct (get_monitors_fallback user32_enum_fails) as [Hf _].
    destruct (Hf eq_refl) as (_ & _ & Hone & Hentry).
    rewrite (Hone eq_refl), Hentry. reflexivity.
  - assert (Hne : EnumDisplayMonitors_result user32_two <> 0) by (simpl; lia).
    split; [exact Hne|].
    destruct (get_monitors_fallback user32_two) as [_ Hs].
    exact (proj1 (Hs Hne)).
Defined.

Lemma nth_error_in_range (monitors : list Monitor) (i : Z) :
  0 <= i < Z.of_nat (List.length monitors) ->
  exists m, nth_error monitors (Z.to_nat i) = Some m.
Proof.
  intro H.
  destruct (nth_error monitors (Z.to_nat i)) as [m|] eqn:E; [now exists m|].
  apply nth_error_None in E. lia.
Qed.

(** C5.  For a non-empty monitor list of length N, the resolution step of
    [cover_monitor] yields [monitors[i]] and prints nothing when
    0 <= i < N, and yields [monitors[0]] together with the fallback notice
    for every other i. *)
Theorem resolve_monitor_spec (monitors : list Monitor) (i : Z) :
  monitors <> [] ->
  (0 <= i < Z.of_nat (List.length monitors) ->
     exists m, nth_error monitors (Z.to_nat i) = Some m /\
               resolve_monitor monitors i = ([], Some m)) /\
  (~ 0 <= i < Z.of_nat (List.length monitors) ->
     exists m0, nth_error monitors 0 = Some m0 /\
                resolve_monitor monitors i = ([fallback_notice i], Some m0)).
Proof.
  intro Hne. unfold resolve_monitor, fallback_notice. split; intro H.
  - destruct (nth_error_in_range monitors i H) as [m Hm].
    exists m. split; [exact Hm|].
    replace (i <? 0) with false by (symmetry; apply Z.ltb_ge; lia).
    replace (i >=? Z.of_nat (List.length monitors)) with false
      by (symmetry; rewrite Z.geb_leb; apply Z.leb_gt; lia).
    cbn [orb]. now rewrite Hm.
  - destruct monitors as [|m0 rest]; [contradiction|].
    exists m0. split; [reflexivity|].
    destruct (i <? 0) eqn:E1; cbn [orb]; [reflexivity|].
    destruct (i >=? Z.of_nat (List.length (m0 :: rest))) eqn:E2; [reflexivity|].
    apply Z.ltb_ge in E1. rewrite Z.geb_leb in E2. apply Z.leb_gt in E2.
    exfalso. apply H. lia.
Qed.

Lemma resolve_monitor_spec_witness :
  resolve_monitor (get_monitors user32_two) 1 =
    ([], Some (mkMonitor 1920 0 3200 1024 1280 1024 false)) /\
  resolve_monitor (get_monitors user32_two) 5 =
    (["Requested monitor 5 not found, falling back to primary (0)."],
     Some (mkMonitor 0 0 1920 1080 1920 1080 true)) /\
  resolve_monitor (get_monitors user32_two) (-1) =
    (["Requested monitor -1 not found, falling back to primary (0)."],
     Some (mkMonitor 0 0 1920 1080 1920 1080 true)).
Proof.
  assert (Hne : get_monitors user32_two <> []) by (vm_compute; discriminate).
  split; [|split].
  - destruct (resolve_monitor_spec (get_monitors user32_two) 1 Hne) as [Hin _].
    destruct Hin as (m & Hm & Hr); [vm_compute; split; congruence|].
    rewrite Hr. vm_compute in Hm. now rewrite Hm.
  - destruct (resolve_monitor_spec (get_monitors user32_two) 5 Hne) as [_ Hout].
    destruct Hout as (m & Hm & Hr); [vm_compute; intros [_ H]; discriminate H|].
    rewrite Hr. vm_compute in Hm. now rewrite Hm.
  - destruct (resolve_monitor_spec (get_monitors user32_two) (-1) Hne) as [_ Hout].
    destruct Hout as (m & Hm & Hr); [vm_compute; intros [H _]; now apply H|].
    rewrite Hr. vm_compute in Hm. now rewrite Hm.
Defined.

(** The window of [cover_monitor] is placed on the resolved monitor when
    no Tk call raises. *)
Lemma cover_monitor_uses_resolved user32 tk i out m :
  get_monitors user32 <> [] ->
  resolve_monitor (get_monitors user32) i = (out, Some m) ->
  tk_raises tk TkCreate = None ->
  first_raise tk (window_setup_calls m) = None ->
  cover_monitor user32 tk i =
    (out ++ icon_failure_lines tk ++ [showing_line m],
     MainLoop (geometry_of m) (left m) (top m) (width m) (height m)).
Proof.
  intros Hne Hr Hc Hs. unfold cover_monitor.
  destruct (get_monitors user32) as [|m0 rest] eqn:E; [contradiction|].
  rewrite Hr, Hc. unfold window_setup_calls, geometry_of in Hs. rewrite Hs.
  now rewrite <- app_assoc.
Qed.

(** C10.  For every index, when the enumeration result is the empty list,
    [cover_monitor] prints "No monitors detected." and exits with status
    1: nothing else is printed, no monitor is chosen and no window is
    made. *)
Theorem cover_monitor_no_monitors (user32 : User32) (tk : Tk)
  (monitor_index : Z) :
  get_monitors user32 = [] ->
  cover_monitor user32 tk monitor_index
    = (["No monitors detected."], SysExit 1).
Proof. intro H. unfold cover_monitor. now rewrite H. Qed.

Lemma cover_monitor_no_monitors_witness :
  get_monitors user32_no_entries = [] /\
  cover_monitor user32_no_entries tk_icon_rejected 1
    = (["No monitors detected."], SysExit 1).
Proof.
  split; [reflexivity|].
  apply (cover_monitor_no_monitors user32_no_entries tk_icon_rejected 1).
  reflexivity.
Defined.

End FullscreenBlackFacts.

(* ================================================================== *)
(** ** Properties of the ControllerApp supervisor *)

Module BlackControllerFacts.
Import BlackController.
Local Open Scope monad_scope.

Ltac unfold_m :=
  unfold bind, ret, get, modify, call, raise, try_except, try_finally.

(** *** The guards *)

Lemma open_black_held os s p :
  proc s = Some p -> open_black os s = (Ret tt, s).
Proof. intro H. unfold open_black. unfold_m. now rewrite H. Qed.

Lemma close_black_idle os s :
  proc s = None -> close_black os s = (Ret tt, s).
Proof. intro H. unfold close_black. unfold_m. now rewrite H. Qed.

(** *** What the undefined [_clear_proc] does to its callers *)

Lemma try_finally_clear_proc {A} (body : M A) s :
  try_finally body _clear_proc s = (Raise attribute_error, snd (body s)).
Proof.
  unfold try_finally, _clear_proc, raise. now destruct (body s).
Qed.

Lemma close_black_held os s p :
  proc s = Some p ->
  close_black os s = (Raise attribute_error, snd (terminate_wait_kill os p s)).
Proof.
  intro H. unfold close_black. unfold bind at 1. unfold get. rewrite H.
  unfold bind. now rewrite try_finally_clear_proc.
Qed.

(** *** Frame reasoning for monadic code *)

Section Preservation.

Variable R : ControllerApp -> ControllerApp -> Prop.
Hypothesis R_refl : forall s, R s s.
Hypothesis R_trans : forall s1 s2 s3, R s1 s2 -> R s2 s3 -> R s1 s3.

Lemma preserves_ret {A} (a : A) : preserves R (ret a).
Proof. intro s. apply R_refl. Qed.

Lemma preserves_raise {A} e : preserves R (@raise A e).
Proof. intro s. apply R_refl. Qed.

Lemma preserves_get : preserves R get.
Proof. intro s. apply R_refl. Qed.

Lemma preserves_bind {A B} (m : M A) (k : A -> M B) :
  preserves R m -> (forall a, preserves R (k a)) -> preserves R (bind m k).
Proof.
  intros Hm Hk s. unfold bind. specialize (Hm s).
  destruct (m s) as [[a|e] s1]; cbn [snd] in *; [|exact Hm].
  eapply R_trans; [exact Hm | apply Hk].
Qed.

Lemma preserves_try_except {A} (m : M A) (h : exn -> M A) :
  preserves R m -> (forall e, preserves R (h e)) -> preserves R (try_except m h).
Proof.
  intros Hm Hh s. unfold try_except. specialize (Hm s).
  destruct (m s) as [[a|e] s1]; cbn [snd] in *; [exact Hm|].
  eapply R_trans; [exact Hm | apply Hh].
Qed.

Lemma preserves_try_finally {A} (m : M A) (f : M unit) :
  preserves R m -> preserves R f -> preserves R (try_finally m f).
Proof.
  intros Hm Hf s. unfold try_finally. specialize (Hm s).
  destruct (m s) as [r s1]; cbn [snd] in *. specialize (Hf s1).
  destruct (f s1) as [[u|e] s2]; cbn [snd] in *; eapply R_trans; eassumption.
Qed.

Lemma preserves_call {A} ev (answer : outcome A) :
  (forall s, R s (log ev s)) -> preserves R (call ev answer).
Proof. intros H s. apply H. Qed.

Lemma preserves_modify f :
  (forall s, R s (f s)) -> preserves R (modify f).
Proof. intros H s. apply H. Qed.

End Preservation.

Lemma same_object_refl s : same_object s s.
Proof. unfold same_object. tauto. Qed.

Lemma same_object_trans s1 s2 s3 :
  same_object s1 s2 -> same_object s2 s3 -> same_object s1 s3.
Proof.
  unfold same_object. intros H1 H2.
  decompose [and] H1. decompose [and] H2. repeat split; congruence.
Qed.

Lemma same_object_log ev s : same_object s (log ev s).
Proof. unfold same_object. cbn. tauto. Qed.

Lemma same_but_job_refl s : same_but_job s s.
Proof. unfold same_but_job. tauto. Qed.

Lemma same_but_job_trans s1 s2 s3 :
  same_but_job s1 s2 -> same_but_job s2 s3 -> same_but_job s1 s3.
Proof.
  unfold same_but_job. intros H1 H2.
  decompose [and] H1. decompose [and] H2. repeat split; congruence.
Qed.

Lemma same_but_job_log ev s : same_but_job s (log ev s).
Proof. unfold same_but_job. cbn. tauto. Qed.

Lemma same_but_job_set_job v s : same_but_job s (set_job v s).
Proof. unfold same_but_job. cbn. tauto. Qed.

Create HintDb frame.
#[local] Hint Resolve same_object_refl same_object_trans same_object_log
  same_but_job_refl same_but_job_trans same_but_job_log
  same_but_job_set_job : frame.

(** Walks through a method body built from [bind], [try_except], calls and
    conditionals. *)
Ltac frame_steps R_refl R_trans :=
  repeat first
    [ apply preserves_modify; solve [auto with frame]
    | apply preserves_call; solve [auto with frame]
    | apply (preserves_ret _ R_refl)
    | apply (preserves_raise _ R_refl)
    | apply (preserves_get _ R_refl)
    | apply (preserves_bind _ R_trans); [|intro]
    | apply (preserves_try_except _ R_trans); [|intro]
    | match goal with
      | |- preserves _ (if ?b then _ else _) => destruct b
      end ].

Lemma poll_same_object os p : preserves same_object (Popen_poll os p).
Proof. intro s. unfold same_object, Popen_poll. cbn. tauto. Qed.

Lemma wait_loop_same_object os p n : preserves same_object (wait_loop os p n).
Proof.
  induction n as [|n IH]; cbn [wait_loop].
  - apply (preserves_ret _ same_object_refl).
  - apply (preserves_bind _ same_object_trans); [apply poll_same_object|].
    intros [c|]; [apply (preserves_ret _ same_object_refl)|].
    unfold time_sleep_tenth.
    apply (preserves_bind _ same_object_trans);
      [apply preserves_call; auto with frame | intros _; exact IH].
Qed.

Lemma terminate_wait_kill_same_object os p :
  preserves same_object (terminate_wait_kill os p).
Proof.
  unfold terminate_wait_kill, Popen_terminate, Popen_kill.
  apply (preserves_try_except _ same_object_trans);
    [|intro; apply (preserves_ret _ same_object_refl)].
  apply (preserves_bind _ same_object_trans);
    [apply preserves_call; auto with frame | intros _].
  apply (preserves_bind _ same_object_trans);
    [apply wait_loop_same_object | intros _].
  apply (preserves_bind _ same_object_trans); [apply poll_same_object|].
  intros [c|]; frame_steps same_object_refl same_object_trans.
Qed.

Lemma attach_job_same_but_job os p : preserves same_but_job (attach_job os p).
Proof.
  unfold attach_job. frame_steps same_but_job_refl same_but_job_trans.
Qed.

Lemma same_handles_refl s : same_handles s s.
Proof. unfold same_handles. tauto. Qed.

Lemma same_handles_trans s1 s2 s3 :
  same_handles s1 s2 -> same_handles s2 s3 -> same_handles s1 s3.
Proof. unfold same_handles. intros [? ?] [? ?]. split; congruence. Qed.

Lemma same_object_handles s s' : same_object s s' -> same_handles s s'.
Proof. unfold same_object, same_handles. tauto. Qed.

(** *** The Job Object block *)

(** The block has its own try/except: whatever the Job API does, nothing
    is raised out of it. *)
Lemma attach_job_returns os p s : fst (attach_job os p s) = Ret tt.
Proof.
  unfold attach_job.
  destruct (have_job os && platform_win32 os); [|reflexivity].
  unfold_m.
  destruct (CreateJobObjectW os) as [h|e]; cbn [fst]; [|reflexivity].
  destruct (truthy h); [|reflexivity].
  destruct (SetInformationJobObject os h) as [res|e]; cbn [fst]; [|reflexivity].
  destruct (truthy res);
    [|destruct (CloseHandle os h); reflexivity].
  destruct (OpenProcess os (pid p)) as [hProcess|e]; cbn [fst]; [|reflexivity].
  destruct (truthy hProcess); [|reflexivity].
  destruct (AssignProcessToJobObject os h hProcess) as [ok|e]; cbn [fst];
    [|reflexivity].
  destruct (truthy ok); [reflexivity|].
  destruct (CloseHandle os h); reflexivity.
Qed.

Ltac job_cases :=
  repeat first
    [ progress cbn [snd fst]
    | reflexivity
    | discriminate
    | match goal with
      | H : ?x = _ |- context [?x] => rewrite H
      | |- context [if truthy ?x then _ else _] => destruct (truthy x) eqn:?
      | |- context [match CloseHandle ?o ?h with _ => _ end] =>
          destruct (CloseHandle o h)
      | |- context [match ?f ?o with _ => _ end] => destruct (f o)
      | |- context [match ?f ?o ?a with _ => _ end] => destruct (f o a)
      | |- context [match ?f ?o ?a ?b with _ => _ end] => destruct (f o a b)
      end ].

(** When the block fails, [self._job] is not assigned. *)
Lemma attach_job_failure os p s :
  job_failure os (pid p) -> _job (snd (attach_job os p s)) = _job s.
Proof.
  intro F. unfold attach_job.
  destruct (have_job os && platform_win32 os); [|reflexivity].
  unfold_m.
  destruct F; job_cases.
Qed.

(** When every step succeeds, the job handle is kept. *)
Lemma attach_job_success os p s h res hProcess ok :
  have_job os = true -> platform_win32 os = true ->
  CreateJobObjectW os = Ret h -> truthy h = true ->
  SetInformationJobObject os h = Ret res -> truthy res = true ->
  OpenProcess os (pid p) = Ret hProcess -> truthy hProcess = true ->
  AssignProcessToJobObject os h hProcess = Ret ok -> truthy ok = true ->
  _job (snd (attach_job os p s)) = Some h.
Proof.
  intros Hj Hw Hh Th Hr Tr Hp Tp Ho To. unfold attach_job.
  rewrite Hj, Hw. cbn [andb]. unfold_m.
  rewrite Hh, Th, Hr, Tr, Hp, Tp, Ho, To. reflexivity.
Qed.

(** *** The poller *)

Lemma _poll_idle os s :
  proc s = None ->
  _poll os s = (Ret tt, set_timers (S (timers s)) (log (EvAfter 500) s)).
Proof. intro H. unfold _poll, root_after. unfold_m. now rewrite H. Qed.

Lemma _poll_exited os s p code :
  proc s = Some p -> poll_answer os (polls s) = Ret (Some code) ->
  _poll os s = (Raise attribute_error,
                set_polls (S (polls s)) (log (EvPoll (pid p)) s)).
Proof.
  intros H Ha. unfold _poll, _clear_proc, Popen_poll. unfold_m.
  now rewrite H, Ha.
Qed.

Lemma _poll_alive os s p :
  proc s = Some p -> poll_answer os (polls s) = Ret None ->
  _poll os s =
    (Ret tt,
     set_timers (S (timers s))
       (log (EvAfter 500)
          (set_status (running_status p)
             (set_polls (S (polls s)) (log (EvPoll (pid p)) s))))).
Proof.
  intros H Ha. unfold _poll, root_after, Popen_poll. unfold_m.
  now rewrite H, Ha.
Qed.

Lemma _poll_raises os s p e :
  proc s = Some p -> poll_answer os (polls s) = Raise e ->
  _poll os s = (Raise e, set_polls (S (polls s)) (log (EvPoll (pid p)) s)).
Proof.
  intros H Ha. unfold _poll, Popen_poll. unfold_m. now rewrite H, Ha.
Qed.

(** Whatever the child did, a tick leaves both handles as they were. *)
Lemma _poll_same_handles os : preserves same_handles (_poll os).
Proof.
  intro s. destruct (proc s) as [p|] eqn:Hp.
  - destruct (poll_answer os (polls s)) as [[code|]|e] eqn:Ha.
    + rewrite (_poll_exited os s p code Hp Ha). split; reflexivity.
    + rewrite (_poll_alive os s p Hp Ha). split; reflexivity.
    + rewrite (_poll_raises os s p e Hp Ha). split; reflexivity.
  - rewrite (_poll_idle os s Hp). split; reflexivity.
Qed.

Lemma _start_polling_fresh os s :
  _polling s = false -> _start_polling os s = _poll os (set_polling true s).
Proof. intro H. unfold _start_polling. unfold_m. now rewrite H. Qed.

Lemma _start_polling_same_handles os : preserves same_handles (_start_polling os).
Proof.
  intro s. unfold _start_polling. unfold bind at 1. unfold get.
  destruct (_polling s); [apply same_handles_refl|].
  unfold bind, modify.
  apply (_poll_same_handles os (set_polling true s)).
Qed.

(** *** open_black from a state that holds no child *)

Lemma open_black_getint_raises os s e :
  proc s = None -> monitor_var_get os = Raise e ->
  open_black os s = (Raise e, s).
Proof. intros H Hg. unfold open_black. unfold_m. now rewrite H, Hg. Qed.

Lemma open_black_launch_failure os s index e :
  proc s = None -> monitor_var_get os = Ret index ->
  subprocess_Popen os (_get_child_command os index) = Raise e ->
  open_black os s =
    (Ret tt,
     set_proc None
       (set_status ("Failed to start: " ++ msg e)%string
          (log (EvPopen (_get_child_command os index) 0) s))).
Proof.
  intros H Hg Hp. unfold open_black. unfold_m. now rewrite H, Hg, Hp.
Qed.

Lemma open_black_started os s index child :
  proc s = None -> monitor_var_get os = Ret index ->
  subprocess_Popen os (_get_child_command os index) = Ret child ->
  open_black os s =
    _start_polling os
      (set_close_btn NORMAL
         (set_open_btn DISABLED
            (set_status (running_status (mkPopen child))
               (snd (attach_job os (mkPopen child)
                       (set_proc (Some (mkPopen child))
                          (log (EvPopen (_get_child_command os index) 0) s))))))).
Proof.
  intros H Hg Hp. unfold open_black. unfold_m. rewrite H, Hg, Hp.
  match goal with |- context [attach_job os ?p ?s1] =>
    pose proof (attach_job_returns os p s1) as Hr;
    destruct (attach_job os p s1) as [r s2]
  end.
  cbn [fst snd] in *. subst r. reflexivity.
Qed.

(** Once the child exists, [open_black] ends holding it. *)
Lemma open_black_started_child os s index child :
  proc s = None -> monitor_var_get os = Ret index ->
  subprocess_Popen os (_get_child_command os index) = Ret child ->
  proc (snd (open_black os s)) = Some (mkPopen child).
Proof.
  intros H Hg Hp. rewrite (open_black_started os s index child H Hg Hp).
  match goal with |- proc (snd (_start_polling os ?s2)) = _ =>
    destruct (_start_polling_same_handles os s2) as [E _]; rewrite E
  end.
  cbn [proc set_close_btn set_open_btn set_status].
  match goal with |- proc (snd (attach_job os ?p ?s1)) = _ =>
    destruct (attach_job_same_but_job os p s1) as [E1 _]; rewrite E1
  end.
  reflexivity.
Qed.

(** *** Steps and reachable states *)

Lemma close_black_same_handles os : preserves same_handles (close_black os).
Proof.
  intro s. destruct (proc s) as [p|] eqn:H.
  - rewrite (close_black_held os s p H). cbn [snd].
    apply same_object_handles, terminate_wait_kill_same_object.
  - rewrite (close_black_idle os s H). apply same_handles_refl.
Qed.

Lemma quit_same_handles os : preserves same_handles (quit os).
Proof.
  intro s. unfold quit, bind.
  pose proof (close_black_same_handles os s) as H.
  destruct (close_black os s) as [[u|e] s1]; cbn [snd] in *; exact H.
Qed.

(** While a child is held, no step changes the child or the job handle. *)
Lemma step_keeps_held s s' p :
  step s s' -> proc s = Some p -> same_handles s s'.
Proof.
  intros St H. destruct St as [os s | os s | os s | os s Ht].
  - rewrite (open_black_held os s p H). apply same_handles_refl.
  - apply close_black_same_handles.
  - apply quit_same_handles.
  - unfold timer_fires.
    apply (_poll_same_handles os (set_timers (pred (timers s)) s)).
Qed.

Lemma step_quiet s s' :
  step s s' -> quiet_when_idle s -> quiet_when_idle s'.
Proof.
  intros St Q. destruct (proc s) as [p|] eqn:H.
  - destruct (step_keeps_held s s' p St H) as [E _].
    intro N. rewrite E, H in N. discriminate N.
  - destruct (Q H) as (Qj & Qp & Qt).
    destruct St as [os s | os s | os s | os s Ht].
    + destruct (monitor_var_get os) as [index|e] eqn:Hg.
      * destruct (subprocess_Popen os (_get_child_command os index))
          as [child|e] eqn:Hp.
        -- intro N.
           rewrite (open_black_started_child os s index child H Hg Hp) in N.
           discriminate N.
        -- rewrite (open_black_launch_failure os s index e H Hg Hp).
           intros _. cbn. auto.
      * rewrite (open_black_getint_raises os s e H Hg). exact Q.
    + rewrite (close_black_idle os s H). exact Q.
    + unfold quit, bind. rewrite (close_black_idle os s H).
      intros _. cbn. auto.
    + rewrite Qt in Ht. inversion Ht.
Qed.

Lemma reachable_quiet s : reachable s -> quiet_when_idle s.
Proof.
  induction 1 as [|s s' _ IH St].
  - intros _. cbn. auto.
  - exact (step_quiet s s' St IH).
Qed.

Lemma running_with_job_reachable : reachable running_with_job.
Proof.
  apply (reach_step init running_with_job reach_init).
  exact (step_open os_alive init).
Qed.

(** *** The grace period of close_black *)

Lemma sleep_total_app tr1 tr2 :
  sleep_total (tr1 ++ tr2) = sleep_total tr1 + sleep_total tr2.
Proof.
  induction tr1 as [|ev tr1 IH]; cbn [app sleep_total]; [reflexivity|].
  destruct ev; rewrite IH; lia.
Qed.

(** The wait loop only polls and sleeps, and sleeps at most [n] tenths of
    a second. *)
Lemma wait_loop_trace os p n : forall s,
  exists tl,
    trace (snd (wait_loop os p n s)) = trace s ++ tl /\
    Forall (is_poll_or_sleep (pid p)) tl /\
    0 <= sleep_total tl <= 100 * Z.of_nat n.
Proof.
  induction n as [|n IH]; intro s.
  - exists []. cbn. rewrite app_nil_r. repeat split; [constructor|lia|lia].
  - cbn [wait_loop]. unfold bind at 1. unfold Popen_poll at 1.
    destruct (poll_answer os (polls s)) as [[code|]|e].
    + exists [EvPoll (pid p)]. cbn. repeat split; try lia.
      constructor; [now left | constructor].
    + unfold time_sleep_tenth, bind, call.
      destruct (IH (log (EvSleep 100)
                      (set_polls (S (polls s)) (log (EvPoll (pid p)) s))))
        as (tl & Ht & Hf & Hs).
      exists (EvPoll (pid p) :: EvSleep 100 :: tl). rewrite Ht. cbn [trace log set_polls].
      repeat split.
      * now rewrite <- !app_assoc.
      * constructor; [now left|]. constructor; [now right | exact Hf].
      * cbn [sleep_total]. lia.
      * cbn [sleep_total]. lia.
    + exists [EvPoll (pid p)]. cbn. repeat split; try lia.
      constructor; [now left | constructor].
Qed.

(** [close_black] first asks the child to terminate and then sleeps for at
    most one second in all. *)
Lemma grace_period_bounded os p s :
  exists tl,
    trace (snd (terminate_wait_kill os p s))
      = trace s ++ EvTerminate (pid p) :: tl /\
    0 <= sleep_total tl <= 1000.
Proof.
  unfold terminate_wait_kill, try_except, Popen_terminate.
  unfold bind at 1. unfold call at 1.
  destruct (terminate_answer os) as [[]|e];
    [|exists []; cbn; split; [reflexivity | lia]].
  unfold bind at 1.
  destruct (wait_loop_trace os p 10 (log (EvTerminate (pid p)) s))
    as (tl & Ht & _ & Hs).
  destruct (wait_loop os p 10 (log (EvTerminate (pid p)) s)) as [[[]|e] s1];
    cbn [snd] in Ht.
  - unfold bind, Popen_poll, Popen_kill, call, ret.
    destruct (poll_answer os (polls s1)) as [[code|]|e].
    + exists (tl ++ [EvPoll (pid p)]). cbn [snd trace log set_polls].
      rewrite Ht. cbn [trace log]. rewrite <- !app_assoc. split; [reflexivity|].
      rewrite sleep_total_app. cbn [sleep_total]. lia.
    + exists (tl ++ [EvPoll (pid p); EvKill (pid p)]).
      assert (E : forall r : outcome unit,
                trace (snd (match r with
                            | Ret a => (Ret a,
                                log (EvKill (pid p))
                                  (set_polls (S (polls s1)) (log (EvPoll (pid p)) s1)))
                            | Raise _ => (Ret tt,
                                log (EvKill (pid p))
                                  (set_polls (S (polls s1)) (log (EvPoll (pid p)) s1)))
                            end))
                = trace s ++ EvTerminate (pid p) :: tl ++ [EvPoll (pid p); EvKill (pid p)]).
      { intros [a|e]; cbn [snd trace log set_polls]; rewrite Ht;
          cbn [trace log]; rewrite <- !app_assoc; reflexivity. }
      split; [apply E|].
      rewrite sleep_total_app. cbn [sleep_total]. lia.
    + exists (tl ++ [EvPoll (pid p)]). cbn [snd trace log set_polls].
      rewrite Ht. cbn [trace log]. rewrite <- !app_assoc. split; [reflexivity|].
      rewrite sleep_total_app. cbn [sleep_total]. lia.
  - exists tl. unfold ret. cbn [snd]. rewrite Ht. cbn [trace log].
    rewrite <- app_assoc. split; [reflexivity | lia].
Qed.

Lemma wait_loop_S_alive os p n s :
  poll_answer os (polls s) = Ret None ->
  wait_loop os p (S n) s =
  wait_loop os p n
    (log (EvSleep 100) (set_polls (S (polls s)) (log (EvPoll (pid p)) s))).
Proof.
  intro H. cbn [wait_loop]. unfold bind, Popen_poll, time_sleep_tenth, call.
  now rewrite H.
Qed.

Lemma wait_loop_still_alive os p n :
  (forall k, poll_answer os k = Ret None) ->
  forall s,
    fst (wait_loop os p n s) = Ret tt /\
    trace (snd (wait_loop os p n s)) = trace s ++ poll_sleep_rounds (pid p) n.
Proof.
  intro Alive. induction n as [|n IH]; intro s.
  - cbn. now rewrite app_nil_r.
  - rewrite (wait_loop_S_alive os p n s (Alive _)).
    destruct (IH (log (EvSleep 100)
                    (set_polls (S (polls s)) (log (EvPoll (pid p)) s))))
      as [Hr Ht].
    split; [exact Hr|]. rewrite Ht. cbn [trace log set_polls poll_sleep_rounds].
    now rewrite <- !app_assoc.
Qed.

(** A child that ignores the request is polled ten times, a tenth of a
    second apart, and is then killed. *)
Lemma kill_when_still_alive os p s :
  terminate_answer os = Ret tt ->
  (forall k, poll_answer os k = Ret None) ->
  trace (snd (terminate_wait_kill os p s))
    = trace s ++ EvTerminate (pid p)
        :: poll_sleep_rounds (pid p) 10 ++ [EvPoll (pid p); EvKill (pid p)].
Proof.
  intros Ht Alive.
  unfold terminate_wait_kill, try_except, Popen_terminate.
  unfold bind at 1. unfold call at 1. rewrite Ht. cbv beta iota.
  unfold bind at 1.
  destruct (wait_loop_still_alive os p 10 Alive (log (EvTerminate (pid p)) s))
    as [Hr Htr].
  destruct (wait_loop os p 10 (log (EvTerminate (pid p)) s)) as [r s1].
  cbn [fst snd] in Hr, Htr. subst r.
  unfold bind, Popen_poll, Popen_kill, call. rewrite Alive. cbv beta iota.
  assert (E : trace (log (EvKill (pid p))
                       (set_polls (S (polls s1)) (log (EvPoll (pid p)) s1)))
              = trace s ++ EvTerminate (pid p)
                  :: poll_sleep_rounds (pid p) 10 ++ [EvPoll (pid p); EvKill (pid p)]).
  { cbn [trace log set_polls]. rewrite Htr. cbn [trace log].
    rewrite <- !app_assoc. reflexivity. }
  destruct (kill_answer os) as [[]|e]; exact E.
Qed.

(** From a state that holds a child, [close_black] always ends in the
    AttributeError, and the object is left as it was. *)
Lemma close_black_held_raises os s p :
  proc s = Some p ->
  fst (close_black os s) = Raise attribute_error /\
  same_object s (snd (close_black os s)).
Proof.
  intro H. rewrite (close_black_held os s p H). split; [reflexivity|].
  apply terminate_wait_kill_same_object.
Qed.

(** *** The claims about the supervisor *)

(** C2.  In every reachable state the job handle is never held without
    the child handle, and no operation lets go of one handle of the pair
    while the other stays held: not [close_black], not a poller tick (the
    natural-exit handling included), and no other step. *)
Theorem handles_paired (s : ControllerApp) :
  reachable s ->
  (_job s <> None -> proc s <> None) /\
  (forall os, ~ released_alone s (snd (close_black os s))) /\
  (forall os, ~ released_alone s (snd (_poll os s))) /\
  (forall s', step s s' -> ~ released_alone s s').
Proof.
  intro Hr. pose proof (reachable_quiet s Hr) as Q.
  assert (Keep : forall s', same_handles s s' -> ~ released_alone s s').
  { intros s' [Ep Ej] [(Hp & Hp' & _) | (Hj & Hj' & _)].
    - apply Hp. now rewrite <- Ep.
    - apply Hj. now rewrite <- Ej. }
  assert (Idle_ok : proc s = None -> forall s', ~ released_alone s s').
  { intros H s' [(Hp & _) | (Hj & _)]; [now apply Hp|].
    apply Hj. now destruct (Q H). }
  repeat split.
  - intros Hj Hp. destruct (Q Hp) as [Hj' _]. now apply Hj.
  - intro os. apply Keep, close_black_same_handles.
  - intro os. apply Keep, _poll_same_handles.
  - intros s' St. destruct (proc s) as [p|] eqn:H.
    + apply Keep. exact (step_keeps_held s s' p St H).
    + now apply Idle_ok.
Qed.

Lemma handles_paired_witness :
  reachable running_with_job /\
  proc running_with_job <> None /\
  ~ released_alone running_with_job
      (snd (close_black os_exited running_with_job)) /\
  ~ released_alone running_with_job
      (snd (_poll os_exited running_with_job)).
Proof.
  destruct (handles_paired running_with_job running_with_job_reachable)
    as (Hpair & Hclose & Hpoll & _).
  split; [exact running_with_job_reachable|].
  split; [apply Hpair; discriminate|].
  split; [apply Hclose | apply Hpoll].
Defined.

(** C3, evaluated where the code departs from it.  The object holds child
    4242 and job handle 77, the child has exited on its own, and the
    queued poller tick fires: the tick ends in the AttributeError of the
    undefined [_clear_proc]; both handles stay held, the status still says
    running, [_polling] stays set, no [CloseHandle] was called and no
    further tick is queued. *)
Theorem natural_exit_handles_stay_held :
  let '(result, s') := timer_fires os_exited running_with_job in
  result = Raise attribute_error /\
  proc s' = Some (mkPopen 4242) /\ _job s' = Some 77 /\
  _polling s' = true /\ status_var s' = "Status: running (pid=4242)" /\
  timers s' = 0%nat /\
  trace s' = trace running_with_job ++ [EvPoll 4242] /\
  existsb is_CloseHandle (trace s') = false.
Proof. vm_compute. repeat split. Qed.

(** The same for every state and every exit code: a tick that finds the
    child exited raises and lets go of nothing. *)
Lemma timer_fires_exited os s p code :
  proc s = Some p ->
  poll_answer os (polls s) = Ret (Some code) ->
  fst (timer_fires os s) = Raise attribute_error /\
  same_handles s (snd (timer_fires os s)) /\
  _polling (snd (timer_fires os s)) = _polling s /\
  timers (snd (timer_fires os s)) = pred (timers s).
Proof.
  intros H Ha. unfold timer_fires.
  rewrite (_poll_exited os (set_timers (pred (timers s)) s) p code H Ha).
  cbn. unfold same_handles. cbn. auto.
Qed.

(** C4, evaluated where the code departs from it.  The object holds child
    4242 and job handle 77; [close_black] asks the child to terminate and
    the child exits at once.  The call ends in the AttributeError raised
    by the finally block: the job handle is not closed and both handles
    stay held. *)
Theorem stop_handles_stay_held :
  let '(result, s') := close_black os_exited running_with_job in
  result = Raise attribute_error /\
  proc s' = Some (mkPopen 4242) /\ _job s' = Some 77 /\
  status_var s' = "Status: running (pid=4242)" /\
  trace s' = trace running_with_job
               ++ [EvTerminate 4242; EvPoll 4242; EvPoll 4242] /\
  existsb is_CloseHandle (trace s') = false.
Proof. vm_compute. repeat split. Qed.

(** C6.  The guards are no-ops: [open_black] on an object that already
    holds a child, and [close_black] on one that holds none, return
    normally and leave the object, the trace of outside calls included,
    exactly as it was. *)
Theorem guards_are_noops (os : OS) (s : ControllerApp) :
  (proc s <> None -> open_black os s = (Ret tt, s)) /\
  (proc s = None -> close_black os s = (Ret tt, s)).
Proof.
  split; intro H.
  - destruct (proc s) as [p|] eqn:Hp; [|contradiction].
    exact (open_black_held os s p Hp).
  - exact (close_black_idle os s H).
Qed.

Lemma guards_are_noops_witness :
  (proc running_with_job <> None /\
   open_black os_alive running_with_job = (Ret tt, running_with_job)) /\
  (proc init = None /\ close_black os_alive init = (Ret tt, init)).
Proof.
  split.
  - assert (H : proc running_with_job <> None) by discriminate.
    split; [exact H|].
    exact (proj1 (guards_are_noops os_alive running_with_job) H).
  - split; [reflexivity|].
    exact (proj2 (guards_are_noops os_alive init) eq_refl).
Defined.

(** C7.  When the child process cannot be created, [open_black] returns
    normally, the status line carries the failure, the object still holds
    neither a child nor a job handle, the buttons and the poller are as
    before, and the only outside call made is the failed [Popen]. *)
Theorem launch_failure_keeps_idle (os : OS) (s : ControllerApp)
  (index : Z) (e : exn) :
  reachable s -> proc s = None ->
  monitor_var_get os = Ret index ->
  subprocess_Popen os (_get_child_command os index) = Raise e ->
  let '(result, s') := open_black os s in
  result = Ret tt /\
  Idle s' /\
  status_var s' = ("Failed to start: " ++ msg e)%string /\
  _polling s' = false /\ timers s' = 0%nat /\
  open_btn s' = open_btn s /\ close_btn s' = close_btn s /\
  polls s' = polls s /\
  trace s' = trace s ++ [EvPopen (_get_child_command os index) 0].
Proof.
  intros Hr H Hg Hp.
  destruct (reachable_quiet s Hr H) as (Qj & Qp & Qt).
  rewrite (open_black_launch_failure os s index e H Hg Hp).
  unfold Idle. cbn. auto 10.
Qed.

Lemma launch_failure_keeps_idle_witness :
  open_black os_popen_fails init =
    (Ret tt,
     set_status
       "Failed to start: [WinError 2] The system cannot find the file specified"
       (log (EvPopen ["black_controller.exe"; "--child"; "1"] 0) init)).
Proof.
  pose proof (launch_failure_keeps_idle os_popen_fails init 1
                (Exception "FileNotFoundError"
                   "[WinError 2] The system cannot find the file specified")
                reach_init eq_refl eq_refl eq_refl) as H.
  destruct (open_black os_popen_fails init) as [result s'].
  destruct H as (Hres & [Hproc Hjob] & Hstatus & Hpoll & Htim & Hob & Hcb & Hpl & Htr).
  destruct s'. cbn in *. subst. reflexivity.
Defined.

(** C8.  When the child process was created and the Job Object block
    fails at any step, by a false result or by an exception, nothing of
    that failure leaves [open_black]: no job handle is kept, the child is
    held, status and buttons are those of a running session and the
    poller is started.  What [open_black] returns is decided by the first
    liveness check alone: it returns normally when the child is still
    running. *)
Theorem job_failure_absorbed (os : OS) (s : ControllerApp)
  (index child : Z) :
  reachable s -> proc s = None ->
  monitor_var_get os = Ret index ->
  subprocess_Popen os (_get_child_command os index) = Ret child ->
  job_failure os child ->
  let '(result, s') := open_black os s in
  proc s' = Some (mkPopen child) /\ _job s' = None /\
  status_var s' = running_status (mkPopen child) /\
  open_btn s' = DISABLED /\ close_btn s' = NORMAL /\
  _polling s' = true /\
  result = first_check_result (poll_answer os (polls s)) /\
  (poll_answer os (polls s) = Ret None -> result = Ret tt /\ timers s' = 1%nat).
Proof.
  intros Hr H Hg Hp F.
  destruct (reachable_quiet s Hr H) as (Qj & Qp & Qt).
  rewrite (open_black_started os s index child H Hg Hp).
  set (s1 := set_proc (Some (mkPopen child))
               (log (EvPopen (_get_child_command os index) 0) s)).
  pose proof (attach_job_failure os (mkPopen child) s1 F) as Hjob.
  destruct (attach_job_same_but_job os (mkPopen child) s1)
    as (Ep & Epo & Est & Eo & Ec & Et & Epl).
  set (s2 := snd (attach_job os (mkPopen child) s1)) in *.
  set (s3 := set_close_btn NORMAL
               (set_open_btn DISABLED
                  (set_status (running_status (mkPopen child)) s2))).
  assert (P3 : proc s3 = Some (mkPopen child)) by (cbn; now rewrite Ep).
  assert (J3 : _job s3 = None) by (cbn; rewrite Hjob; exact Qj).
  assert (L3 : polls s3 = polls s) by (cbn; now rewrite Epl).
  assert (T3 : timers s3 = 0%nat) by (cbn; rewrite Et; exact Qt).
  assert (G3 : _polling s3 = false) by (cbn; rewrite Epo; exact Qp).
  rewrite (_start_polling_fresh os s3 G3). rewrite <- L3.
  assert (P4 : proc (set_polling true s3) = Some (mkPopen child)) by exact P3.
  destruct (poll_answer os (polls s3)) as [[code|]|e] eqn:Ha.
  - rewrite (_poll_exited os (set_polling true s3) _ code P4 Ha).
    cbn. rewrite Ep, Hjob. cbn. repeat split; auto; try discriminate.
  - rewrite (_poll_alive os (set_polling true s3) _ P4 Ha).
    cbn. rewrite Ep, Hjob, Et. cbn. repeat split; auto.
  - rewrite (_poll_raises os (set_polling true s3) _ e P4 Ha).
    cbn. rewrite Ep, Hjob. cbn. repeat split; auto; try discriminate.
Qed.

Lemma job_failure_absorbed_witness :
  let '(result, s') := open_black os_job_fails init in
  result = Ret tt /\
  proc s' = Some (mkPopen 4242) /\ _job s' = None /\
  status_var s' = "Status: running (pid=4242)" /\
  _polling s' = true /\ timers s' = 1%nat.
Proof.
  assert (F : job_failure os_job_fails 4242)
    by (apply (configure_fails os_job_fails 4242 77 0); reflexivity).
  pose proof (job_failure_absorbed os_job_fails init 1 4242
                reach_init eq_refl eq_refl eq_refl F) as H.
  destruct (open_black os_job_fails init) as [result s'].
  destruct H as (Hp & Hj & Hs & _ & _ & Hpo & _ & Hal).
  destruct (Hal eq_refl) as [Hres Ht].
  repeat split; assumption.
Defined.


End BlackControllerFacts.

(* ================================================================== *)
(** ** Further properties of fullscreen_black.py *)

Module FullscreenBlackMore.
Import FullscreenBlack FullscreenBlackFacts.

Lemma contribution_entries user32 h m :
  In m (contribution user32 h) ->
  width m = right m - left m /\ height m = bottom m - top m.
Proof.
  unfold contribution. destruct (GetMonitorInfoW user32 h) as [res mi].
  destruct (truthy res); cbn [In]; [|tauto].
  intros [<- | []]. split; reflexivity.
Qed.

(** X1.  Every entry [get_monitors] returns, the synthetic fallback entry
    included, has width = right - left and height = bottom - top. *)
Theorem get_monitors_entries_consistent (user32 : User32) (m : Monitor) :
  In m (get_monitors user32) ->
  width m = right m - left m /\ height m = bottom m - top m.
Proof.
  unfold get_monitors. intro H.
  assert (Henum : In m (enumerated user32) ->
                  width m = right m - left m /\ height m = bottom m - top m).
  { rewrite enumerated_spec. intro Hin. apply in_flat_map in Hin.
    destruct Hin as (h & _ & Hh). exact (contribution_entries user32 h m Hh). }
  destruct (negb (truthy (EnumDisplayMonitors_result user32))); [|auto].
  apply in_app_or in H. destruct H as [H | [<- | []]]; [auto|].
  unfold fallback_entry. cbn. split; lia.
Qed.

Lemma get_monitors_entries_consistent_witness :
  In (mkMonitor 1920 0 3200 1024 1280 1024 false) (get_monitors user32_two) /\
  1280 = 3200 - 1920 /\ 1024 = 1024 - 0.
Proof.
  assert (H : In (mkMonitor 1920 0 3200 1024 1280 1024 false)
                 (get_monitors user32_two)) by (right; left; reflexivity).
  split; [exact H|].
  exact (get_monitors_entries_consistent user32_two _ H).
Defined.

Lemma flat_map_contribution user32 hs :
  flat_map (contribution user32) hs =
  map (fun h => entry_of (snd (GetMonitorInfoW user32 h)))
      (filter (fun h => truthy (fst (GetMonitorInfoW user32 h))) hs).
Proof.
  induction hs as [|h hs IH]; [reflexivity|].
  cbn [flat_map filter]. unfold contribution at 1.
  destruct (GetMonitorInfoW user32 h) as [res mi] eqn:E. cbn [fst].
  destruct (truthy res); cbn [map app]; rewrite IH; [|reflexivity].
  now rewrite E.
Qed.

(** X2.  [get_monitors] returns, in enumeration order, one entry for each
    monitor handle whose [GetMonitorInfoW] succeeded and none for the
    others, followed by the fallback entry exactly when
    [EnumDisplayMonitors] returned 0. *)
Theorem get_monitors_in_enumeration_order (user32 : User32) :
  get_monitors user32 =
  map (fun h => entry_of (snd (GetMonitorInfoW user32 h)))
      (filter (fun h => truthy (fst (GetMonitorInfoW user32 h)))
              (enum_handles user32))
  ++ (if EnumDisplayMonitors_result user32 =? 0
      then [fallback_entry user32] else []).
Proof.
  unfold get_monitors, truthy.
  rewrite enumerated_spec, flat_map_contribution.
  destruct (EnumDisplayMonitors_result user32 =? 0); cbn [negb];
    [reflexivity | now rewrite app_nil_r].
Qed.




Example cover_monitor_no_display :
  cover_monitor user32_two tk_no_display 1 = ([], Uncaught "TclError").
Proof. reflexivity. Qed.

(** X4.  With exactly one monitor enumerated, every index ends on that
    monitor: when no Tk call raises, [cover_monitor] reaches the main loop
    on its rectangle for every index.  The fallback notice is printed for
    every index but 0 (so for the default index 1 too), followed by the
    icon-failure line if [iconbitmap] raised, and by the closing line. *)
Theorem single_monitor_always_chosen (user32 : User32) (tk : Tk)
  (m : Monitor) (i : Z) :
  get_monitors user32 = [m] ->
  tk_raises tk TkCreate = None ->
  first_raise tk (window_setup_calls m) = None ->
  cover_monitor user32 tk i =
    ((if i =? 0 then [] else [fallback_notice i])
       ++ icon_failure_lines tk ++ [showing_line m],
     MainLoop (geometry_of m) (left m) (top m) (width m) (height m)).
Proof.
  intros H Hc Hs.
  assert (Hne : get_monitors user32 <> []) by (rewrite H; discriminate).
  apply (cover_monitor_uses_resolved user32 tk i _ m Hne); [|exact Hc|exact Hs].
  unfold resolve_monitor. rewrite H.
  change (Z.of_nat (List.length [m])) with 1.
  destruct (Z.eqb_spec i 0) as [-> | Hi]; [reflexivity|].
  replace ((i <? 0) || (i >=? 1)) with true; [reflexivity|].
  symmetry. apply orb_true_iff. rewrite Z.geb_leb.
  destruct (Z_lt_dec i 0); [left; now apply Z.ltb_lt | right; apply Z.leb_le; lia].
Qed.

Lemma single_monitor_always_chosen_witness :
  get_monitors user32_single = [mkMonitor 0 0 1920 1080 1920 1080 true] /\
  cover_monitor user32_single tk_icon_rejected 1 =
    (["Requested monitor 1 not found, falling back to primary (0).";
      "Failed to set window icon.";
      "Showing black fullscreen on monitor at 0,0 1920x1080. Press ESC to close."],
     MainLoop "1920x1080+0+0" 0 0 1920 1080).
Proof.
  split; [reflexivity|].
  rewrite (single_monitor_always_chosen user32_single tk_icon_rejected
             (mkMonitor 0 0 1920 1080 1920 1080 true) 1
             eq_refl eq_refl eq_refl).
  reflexivity.
Defined.

End FullscreenBlackMore.

(* ================================================================== *)
(** ** The entry points: from the controller's command to the child's monitor *)

Module EntryPointFacts.
Import FullscreenBlack BlackController.

Lemma list_index_first x pre rest :
  ~ In x pre -> list_index x (pre ++ x :: rest) = Some (List.length pre).
Proof.
  induction pre as [|y pre IH]; intro Hn; cbn [app list_index List.length].
  - now rewrite String.eqb_refl.
  - destruct (String.eqb_spec y x) as [-> | _].
    + exfalso. apply Hn. now left.
    + rewrite IH; [reflexivity|]. intro Hin. apply Hn. now right.
Qed.

Lemma list_index_absent x l : ~ In x l -> list_index x l = None.
Proof.
  induction l as [|y l IH]; intro Hn; cbn [list_index]; [reflexivity|].
  destruct (String.eqb_spec y x) as [-> | _].
  - exfalso. apply Hn. now left.
  - rewrite IH; [reflexivity|]. intro Hin. apply Hn. now right.
Qed.

Lemma nth_error_after_prefix (pre : list string) x arg rest :
  nth_error (pre ++ x :: arg :: rest) (List.length pre + 1) = Some arg.
Proof.
  induction pre as [|y pre IH]; cbn [app List.length Nat.add nth_error];
    [reflexivity | exact IH].
Qed.

Lemma nth_error_past_end (pre : list string) x :
  nth_error (pre ++ [x]) (List.length pre + 1) = None.
Proof.
  apply nth_error_None. rewrite length_app. cbn [List.length]. lia.
Qed.

(** X5.  Script mode: the arguments the controller builds for
    [fullscreen_black.py], read back by the script's [__main__] block
    (whose [sys.argv] starts at the script path), give [cover_monitor]
    the very index the controller chose, provided [int] reads back the
    decimal form of that index. *)
Theorem script_child_gets_chosen_index (int_of_str : string -> option Z)
  (user32 : User32) (tk : Tk) (os : OS) (index : Z) :
  is_frozen os = false ->
  int_of_str (str_of_int index) = Some index ->
  script_main int_of_str user32 tk (tl (_get_child_command os index))
    = cover_monitor user32 tk index.
Proof.
  intros Hf Hi. unfold script_main, _get_child_command. rewrite Hf.
  cbn [tl target_index_of_argv]. now rewrite Hi.
Qed.

Lemma script_child_gets_chosen_index_witness :
  script_main decimal_int user32_two tk_ok
      (tl (_get_child_command os_alive 1))
    = cover_monitor user32_two tk_ok 1.
Proof.
  exact (script_child_gets_chosen_index decimal_int user32_two tk_ok
           os_alive 1 eq_refl eq_refl).
Defined.

(** X6.  Frozen mode: the command the controller builds for its own
    executable makes [main] enter child mode and run [cover_monitor] on
    the index the controller chose, with no notice printed, provided the
    executable's path is not itself the text "--child" and [int] reads
    back the decimal form of the index. *)
Theorem frozen_child_gets_chosen_index (int_of_str : string -> option Z)
  (user32 : User32) (tk : Tk) (os : OS) (index : Z) :
  is_frozen os = true ->
  sys_executable os <> "--child" ->
  int_of_str (str_of_int index) = Some index ->
  main int_of_str user32 tk (_get_child_command os index)
    = let '(out, ending) := cover_monitor user32 tk index in
      ChildMode out ending.
Proof.
  intros Hf Hexe Hi. unfold main, _get_child_command. rewrite Hf.
  cbn [existsb]. rewrite String.eqb_refl, orb_true_r.
  unfold run_child_mode_from_args, child_mode_index. cbn [list_index].
  destruct (String.eqb_spec (sys_executable os) "--child") as [E | _];
    [contradiction|].
  rewrite String.eqb_refl. cbn [option_map Nat.add nth_error]. rewrite Hi.
  destruct (cover_monitor user32 tk index) as [out ending]. reflexivity.
Qed.

Lemma frozen_child_gets_chosen_index_witness :
  main decimal_int user32_two tk_ok (_get_child_command os_popen_fails 0)
    = ChildMode
        ["Showing black fullscreen on monitor at 0,0 1920x1080. Press ESC to close."]
        (MainLoop "1920x1080+0+0" 0 0 1920 1080).
Proof.
  assert (Hexe : sys_executable os_popen_fails <> "--child")
    by (cbn; discriminate).
  rewrite (frozen_child_gets_chosen_index decimal_int user32_two tk_ok
             os_popen_fails 0 eq_refl Hexe eq_refl).
  reflexivity.
Defined.

(** X7.  Child mode reads the argument that follows the first "--child":
    whatever comes before the first flag or after that argument is not
    looked at.  If the argument is an integer it is the index and nothing
    is printed; if not, the notice is printed and the index is 1. *)
Theorem child_mode_index_first_flag (int_of_str : string -> option Z)
  (pre : list string) (arg : string) (rest : list string) :
  ~ In "--child" pre ->
  child_mode_index int_of_str (pre ++ "--child" :: arg :: rest) =
    match int_of_str arg with
    | Some n => ([], n)
    | None => ([invalid_index_notice], 1)
    end.
Proof.
  intro Hn. unfold child_mode_index.
  rewrite (list_index_first "--child" pre (arg :: rest) Hn).
  now rewrite nth_error_after_prefix.
Qed.

Lemma child_mode_index_first_flag_witness :
  child_mode_index decimal_int
    (["black_controller.exe"; "-v"] ++ "--child" :: "2" :: ["--child"; "5"])
    = ([], 2) /\
  child_mode_index decimal_int
    (["black_controller.exe"] ++ "--child" :: "--child" :: ["3"])
    = ([invalid_index_notice], 1).
Proof.
  split.
  - rewrite (child_mode_index_first_flag decimal_int
               ["black_controller.exe"; "-v"] "2" ["--child"; "5"]);
      [reflexivity|].
    cbn. intros [H | [H | []]]; discriminate H.
  - rewrite (child_mode_index_first_flag decimal_int
               ["black_controller.exe"] "--child" ["3"]);
      [reflexivity|].
    cbn. intros [H | []]; discriminate H.
Defined.

(** X8.  When "--child" is the last argument, child mode uses index 1 and
    prints no notice; the notice is printed (and the index is 1 again)
    when the arguments hold no "--child" at all. *)
Theorem child_mode_index_without_argument (int_of_str : string -> option Z)
  (pre : list string) :
  ~ In "--child" pre ->
  child_mode_index int_of_str (pre ++ ["--child"]) = ([], 1) /\
  child_mode_index int_of_str pre = ([invalid_index_notice], 1).
Proof.
  intro Hn. unfold child_mode_index. split.
  - rewrite (list_index_first "--child" pre [] Hn).
    now rewrite nth_error_past_end.
  - now rewrite (list_index_absent "--child" pre Hn).
Qed.

Lemma child_mode_index_without_argument_witness :
  child_mode_index decimal_int (["black_controller.exe"] ++ ["--child"])
    = ([], 1) /\
  child_mode_index decimal_int ["black_controller.exe"]
    = ([invalid_index_notice], 1).
Proof.
  apply (child_mode_index_without_argument decimal_int
           ["black_controller.exe"]).
  cbn. intros [H | []]; discriminate H.
Defined.


(** X10.  [set_app_user_model_id] reports success only on Windows, only
    after handing the shell the ID it returns, and only when that call did
    not raise; off Windows it makes no call and returns (None, False); it
    never makes more than one call. *)
Theorem set_app_user_model_id_report (stem : string -> string)
  (shell : string -> outcome unit) (os : OS) (appid : option string) :
  let '((returned, ok), passed) := set_app_user_model_id stem shell os appid in
  (ok = true ->
     platform_win32 os = true /\
     exists a, returned = Some a /\ passed = [a] /\ shell a = Ret tt) /\
  (platform_win32 os = false ->
     returned = None /\ ok = false /\ passed = []) /\
  (List.length passed <= 1)%nat.
Proof.
  unfold set_app_user_model_id.
  destruct (platform_win32 os); cbn [negb].
  - match goal with |- context [shell ?a] =>
      destruct (shell a) as [[]|e] eqn:E
    end.
    + repeat split; try discriminate; [|cbn; lia]. eauto.
    + repeat split; try discriminate. cbn; lia.
  - repeat split; try discriminate. cbn; lia.
Qed.

Lemma set_app_user_model_id_report_witness :
  platform_win32 os_popen_fails = true /\
  exists a, Some "com.black_controller" = Some a /\
            ["com.black_controller"] = [a] /\
            @Ret unit tt = Ret tt.
Proof.
  exact (proj1 (set_app_user_model_id_report (fun _ => "black_controller")
                  (fun _ => Ret tt) os_popen_fails None) eq_refl).
Defined.

End EntryPointFacts.

(* ================================================================== *)
(** ** Further properties of the supervisor *)

Module SupervisorFacts.
Import BlackController BlackControllerFacts.
Local Open Scope monad_scope.

Lemma trace_log ev s : trace (log ev s) = trace s ++ [ev].
Proof. reflexivity. Qed.

(** *** Starting a session *)

Lemma open_black_first_poll os s index child :
  proc s = None -> _polling s = false ->
  monitor_var_get os = Ret index ->
  subprocess_Popen os (_get_child_command os index) = Ret child ->
  open_black os s =
    _poll os
      (set_polling true
         (set_close_btn NORMAL
            (set_open_btn DISABLED
               (set_status (running_status (mkPopen child))
                  (snd (attach_job os (mkPopen child)
                          (set_proc (Some (mkPopen child))
                             (log (EvPopen (_get_child_command os index) 0) s)))))))).
Proof.
  intros H Hq Hg Hp. rewrite (open_black_started os s index child H Hg Hp).
  apply _start_polling_fresh. cbn [_polling set_close_btn set_open_btn set_status].
  match goal with |- _polling (snd (attach_job os ?p ?s1)) = _ =>
    destruct (attach_job_same_but_job os p s1) as (_ & E & _); rewrite E
  end.
  exact Hq.
Qed.

Lemma attach_job_success_state os p s h res hProcess ok :
  have_job os = true -> platform_win32 os = true ->
  CreateJobObjectW os = Ret h -> truthy h = true ->
  SetInformationJobObject os h = Ret res -> truthy res = true ->
  OpenProcess os (pid p) = Ret hProcess -> truthy hProcess = true ->
  AssignProcessToJobObject os h hProcess = Ret ok -> truthy ok = true ->
  attach_job os p s =
    (Ret tt,
     set_job (Some h)
       (log (EvAssignProcessToJobObject h hProcess)
          (log (EvOpenProcess PROCESS_ALL_ACCESS (pid p))
             (log (EvSetInformationJobObject h
                     JobObjectExtendedLimitInformation
                     JOB_OBJECT_LIMIT_KILL_ON_JOB_CLOSE)
                (log EvCreateJobObjectW s))))).
Proof.
  intros Hj Hw Hh Th Hr Tr Hp Tp Ho To. unfold attach_job.
  rewrite Hj, Hw. cbn [andb]. unfold_m.
  rewrite Hh, Th, Hr, Tr, Hp, Tp, Ho, To. reflexivity.
Qed.

Lemma attach_job_skipped os p s :
  have_job os && platform_win32 os = false -> attach_job os p s = (Ret tt, s).
Proof. intro H. unfold attach_job. now rewrite H. Qed.

(** X11.  A start in which the child is created, every Job Object call
    succeeds and the child is still running at the first check: the
    outside calls are, in this order, Popen with creation flags 0,
    CreateJobObjectW, SetInformationJobObject with the
    kill-on-job-close limit, OpenProcess on the child's pid,
    AssignProcessToJobObject, one poll, and the queuing of the next tick
    after 500 ms; the handle that CreateJobObjectW returned is the one
    kept in [_job]. *)
Theorem open_black_attaches_job (os : OS) (s : ControllerApp)
  (index child h res hProcess ok : Z) :
  reachable s -> proc s = None ->
  monitor_var_get os = Ret index ->
  subprocess_Popen os (_get_child_command os index) = Ret child ->
  have_job os = true -> platform_win32 os = true ->
  CreateJobObjectW os = Ret h -> truthy h = true ->
  SetInformationJobObject os h = Ret res -> truthy res = true ->
  OpenProcess os child = Ret hProcess -> truthy hProcess = true ->
  AssignProcessToJobObject os h hProcess = Ret ok -> truthy ok = true ->
  poll_answer os (polls s) = Ret None ->
  let '(result, s') := open_black os s in
  result = Ret tt /\
  proc s' = Some (mkPopen child) /\ _job s' = Some h /\
  status_var s' = running_status (mkPopen child) /\
  _polling s' = true /\ timers s' = 1%nat /\
  trace s' = trace s
             ++ EvPopen (_get_child_command os index) 0
                :: job_attached_events child h hProcess
             ++ [EvPoll child; EvAfter 500].
Proof.
  intros Hr H Hg Hp Hj Hw Hh Th Hs Ts Ho To Ha Ta Alive.
  destruct (reachable_quiet s Hr H) as (Qj & Qp & Qt).
  rewrite (open_black_first_poll os s index child H Qp Hg Hp).
  rewrite (attach_job_success_state os (mkPopen child) _ h res hProcess ok
             Hj Hw Hh Th Hs Ts Ho To Ha Ta).
  cbn [snd].
  erewrite _poll_alive; [|reflexivity|exact Alive].
  cbn. rewrite Qt. repeat split.
  unfold job_attached_events. rewrite <- !app_assoc. reflexivity.
Qed.

Lemma open_black_attaches_job_witness :
  open_black os_alive init = (Ret tt, running_with_job).
Proof.
  pose proof (open_black_attaches_job os_alive init 1 4242 77 1 88 1
                reach_init eq_refl eq_refl eq_refl eq_refl eq_refl
                eq_refl eq_refl eq_refl eq_refl eq_refl eq_refl
                eq_refl eq_refl eq_refl) as H.
  destruct (open_black os_alive init) as [result s'] eqn:E.
  destruct H as (Hres & _). rewrite Hres.
  vm_compute in E. injection E as _ <-. reflexivity.
Defined.

(** X12.  Where the Job Object block does not apply (not on Windows, or
    ctypes could not be imported), a start makes no Job API call at all:
    the outside calls are Popen, one poll and the queuing of the next
    tick, and no job handle is held. *)
Theorem open_black_without_job_api (os : OS) (s : ControllerApp)
  (index child : Z) :
  reachable s -> proc s = None ->
  monitor_var_get os = Ret index ->
  subprocess_Popen os (_get_child_command os index) = Ret child ->
  have_job os && platform_win32 os = false ->
  poll_answer os (polls s) = Ret None ->
  let '(result, s') := open_black os s in
  result = Ret tt /\
  proc s' = Some (mkPopen child) /\ _job s' = None /\
  status_var s' = running_status (mkPopen child) /\
  trace s' = trace s
             ++ [EvPopen (_get_child_command os index) 0;
                 EvPoll child; EvAfter 500].
Proof.
  intros Hr H Hg Hp Hno Alive.
  destruct (reachable_quiet s Hr H) as (Qj & Qp & Qt).
  rewrite (open_black_first_poll os s index child H Qp Hg Hp).
  rewrite (attach_job_skipped os (mkPopen child) _ Hno). cbn [snd].
  erewrite _poll_alive; [|reflexivity|exact Alive].
  cbn. rewrite Qj. repeat split. rewrite <- !app_assoc. reflexivity.
Qed.

Lemma open_black_without_job_api_witness :
  let '(result, s') := open_black os_posix init in
  result = Ret tt /\
  proc s' = Some (mkPopen 4242) /\ _job s' = None /\
  status_var s' = "Status: running (pid=4242)" /\
  trace s' = [EvPopen ["/usr/bin/python3"; "fullscreen_black.py"; "0"] 0;
              EvPoll 4242; EvAfter 500].
Proof.
  exact (open_black_without_job_api os_posix init 0 4242
           reach_init eq_refl eq_refl eq_refl eq_refl eq_refl).
Defined.

(** X13.  A job that was created but cannot be used is closed again: when
    configuring it reports failure, or when assigning the child to it
    reports failure, the block calls CloseHandle on the job handle and
    [_job] is not set. *)
Theorem unusable_job_is_closed (os : OS) (p : Popen) (s : ControllerApp)
  (h : Z) :
  have_job os = true -> platform_win32 os = true ->
  CreateJobObjectW os = Ret h -> truthy h = true ->
  (exists res, SetInformationJobObject os h = Ret res /\ truthy res = false) \/
  (exists res hProcess ok,
     SetInformationJobObject os h = Ret res /\ truthy res = true /\
     OpenProcess os (pid p) = Ret hProcess /\ truthy hProcess = true /\
     AssignProcessToJobObject os h hProcess = Ret ok /\ truthy ok = false) ->
  _job (snd (attach_job os p s)) = _job s /\
  exists before after,
    trace (snd (attach_job os p s))
      = trace s ++ before ++ EvCloseHandle h :: after /\
    existsb is_CloseHandle before = false /\
    (after = [] \/ after = [EvPrint "Failed to set job object"]).
Proof.
  intros Hj Hw Hh Th Hcase. unfold attach_job. rewrite Hj, Hw. cbn [andb].
  unfold_m. rewrite Hh, Th.
  destruct Hcase as [(res & Hs & Ts) | (res & hp & ok & Hs & Ts & Ho & To & Ha & Ta)].
  - rewrite Hs, Ts.
    destruct (CloseHandle os h) as [r|e]; cbn [snd]; (split; [reflexivity|]);
      eexists [_; _], _; rewrite !trace_log, <- !app_assoc;
      (split; [reflexivity | split; [reflexivity | auto]]).
  - rewrite Hs, Ts, Ho, To, Ha, Ta.
    destruct (CloseHandle os h) as [r|e]; cbn [snd]; (split; [reflexivity|]);
      eexists [_; _; _; _], _; rewrite !trace_log, <- !app_assoc;
      (split; [reflexivity | split; [reflexivity | auto]]).
Qed.

Lemma unusable_job_is_closed_witness :
  trace (snd (attach_job os_job_fails (mkPopen 4242) init))
    = [EvCreateJobObjectW; EvSetInformationJobObject 77 9 8192;
       EvCloseHandle 77] /\
  _job (snd (attach_job os_job_fails (mkPopen 4242) init)) = None.
Proof.
  destruct (unusable_job_is_closed os_job_fails (mkPopen 4242) init 77
              eq_refl eq_refl eq_refl eq_refl
              (or_introl (ex_intro _ 0 (conj eq_refl eq_refl))))
    as [Hjob _].
  split; [reflexivity | exact Hjob].
Defined.

(** X14.  When OpenProcess returns a null handle, the block stops there:
    it raises nothing, [_job] is not set, and the job handle it created is
    not closed (no CloseHandle call is made). *)
Theorem unopened_child_leaves_job_open (os : OS) (p : Popen)
  (s : ControllerApp) (h res hProcess : Z) :
  have_job os = true -> platform_win32 os = true ->
  CreateJobObjectW os = Ret h -> truthy h = true ->
  SetInformationJobObject os h = Ret res -> truthy res = true ->
  OpenProcess os (pid p) = Ret hProcess -> truthy hProcess = false ->
  let '(result, s') := attach_job os p s in
  result = Ret tt /\ _job s' = _job s /\
  trace s' = trace s
             ++ [EvCreateJobObjectW;
                 EvSetInformationJobObject h
                   JobObjectExtendedLimitInformation
                   JOB_OBJECT_LIMIT_KILL_ON_JOB_CLOSE;
                 EvOpenProcess PROCESS_ALL_ACCESS (pid p)].
Proof.
  intros Hj Hw Hh Th Hs Ts Ho To. unfold attach_job. rewrite Hj, Hw.
  cbn [andb]. unfold_m. rewrite Hh, Th, Hs, Ts, Ho, To.
  repeat split. rewrite !trace_log, <- !app_assoc. reflexivity.
Qed.

Lemma unopened_child_leaves_job_open_witness :
  let '(result, s') := attach_job os_open_process_fails (mkPopen 4242) init in
  result = Ret tt /\ _job s' = _job init /\
  trace s' = trace init
             ++ [EvCreateJobObjectW; EvSetInformationJobObject 77 9 8192;
                 EvOpenProcess 2035711 4242].
Proof.
  exact (unopened_child_leaves_job_open os_open_process_fails (mkPopen 4242)
           init 77 1 0 eq_refl eq_refl eq_refl eq_refl eq_refl eq_refl
           eq_refl eq_refl).
Defined.

(** *** Stopping a session *)

Lemma terminate_wait_kill_events os p s :
  exists body fin,
    trace (snd (terminate_wait_kill os p s))
      = trace s ++ EvTerminate (pid p) :: body ++ fin /\
    Forall (is_poll_or_sleep (pid p)) body /\
    (fin = [] \/ fin = [EvKill (pid p)]) /\
    0 <= sleep_total body <= 1000.
Proof.
  unfold terminate_wait_kill, try_except, Popen_terminate.
  unfold bind at 1. unfold call at 1.
  destruct (terminate_answer os) as [[]|e].
  2:{ exists [], []. cbn. repeat split; [constructor | now left | lia | lia]. }
  unfold bind at 1.
  destruct (wait_loop_trace os p 10 (log (EvTerminate (pid p)) s))
    as (tl & Ht & Hf & Hs).
  destruct (wait_loop os p 10 (log (EvTerminate (pid p)) s)) as [[[]|e] s1];
    cbn [snd] in Ht.
  2:{ exists tl, []. unfold ret. cbn [snd]. rewrite Ht, trace_log, app_nil_r.
      rewrite <- app_assoc. repeat split; [exact Hf | now left | lia | lia]. }
  assert (Hbody : Forall (is_poll_or_sleep (pid p)) (tl ++ [EvPoll (pid p)])).
  { apply Forall_app. split; [exact Hf|]. constructor; [now left | constructor]. }
  assert (Hsleep : 0 <= sleep_total (tl ++ [EvPoll (pid p)]) <= 1000).
  { rewrite sleep_total_app. cbn [sleep_total]. lia. }
  assert (Htr : trace (set_polls (S (polls s1)) (log (EvPoll (pid p)) s1))
                = trace s ++ EvTerminate (pid p) :: tl ++ [EvPoll (pid p)]).
  { cbn [trace set_polls log]. rewrite Ht, trace_log, <- !app_assoc. reflexivity. }
  unfold bind, Popen_poll, Popen_kill, call, ret.
  destruct (poll_answer os (polls s1)) as [[code|]|e].
  - exists (tl ++ [EvPoll (pid p)]), []. cbn [snd]. rewrite Htr, app_nil_r.
    repeat split; [exact Hbody | now left | lia | lia].
  - exists (tl ++ [EvPoll (pid p)]), [EvKill (pid p)].
    assert (E : trace (log (EvKill (pid p))
                         (set_polls (S (polls s1)) (log (EvPoll (pid p)) s1)))
                = trace s ++ EvTerminate (pid p)
                    :: (tl ++ [EvPoll (pid p)]) ++ [EvKill (pid p)]).
    { rewrite trace_log, Htr, <- !app_assoc. cbn [app].
      rewrite <- !app_assoc. reflexivity. }
    destruct (kill_answer os) as [[]|e]; cbn [snd];
      (repeat split; [exact E | exact Hbody | now right | lia | lia]).
  - exists (tl ++ [EvPoll (pid p)]), []. cbn [snd]. rewrite Htr, app_nil_r.
    repeat split; [exact Hbody | now left | lia | lia].
Qed.

(** X15.  Whatever the child and the system answer, [close_black] on a
    held child first asks it to terminate, then only polls it and sleeps a
    tenth of a second at a time, for at most one second of sleep in all,
    and ends with at most one kill. *)
Theorem close_black_requests_then_waits (os : OS) (s : ControllerApp)
  (p : Popen) :
  proc s = Some p ->
  exists body fin,
    trace (snd (close_black os s))
      = trace s ++ EvTerminate (pid p) :: body ++ fin /\
    Forall (is_poll_or_sleep (pid p)) body /\
    (fin = [] \/ fin = [EvKill (pid p)]) /\
    0 <= sleep_total body <= 1000.
Proof.
  intro H. rewrite (close_black_held os s p H). cbn [snd].
  apply terminate_wait_kill_events.
Qed.

Lemma close_black_requests_then_waits_witness :
  proc running_with_job = Some (mkPopen 4242) /\
  exists body fin,
    trace (snd (close_black os_alive running_with_job))
      = trace running_with_job ++ EvTerminate 4242 :: body ++ fin /\
    Forall (is_poll_or_sleep 4242) body /\
    (fin = [] \/ fin = [EvKill 4242]) /\
    0 <= sleep_total body <= 1000.
Proof.
  split; [reflexivity|].
  exact (close_black_requests_then_waits os_alive running_with_job
           (mkPopen 4242) eq_refl).
Defined.

(** X16.  A child that does not react to the terminate request is polled
    ten times with a tenth of a second of sleep after each poll, polled
    once more, and then killed. *)
Theorem close_black_kills_unresponsive_child (os : OS) (s : ControllerApp)
  (p : Popen) :
  proc s = Some p ->
  terminate_answer os = Ret tt ->
  (forall k, poll_answer os k = Ret None) ->
  trace (snd (close_black os s))
    = trace s ++ EvTerminate (pid p)
        :: poll_sleep_rounds (pid p) 10 ++ [EvPoll (pid p); EvKill (pid p)].
Proof.
  intros H Ht Alive. rewrite (close_black_held os s p H). cbn [snd].
  exact (kill_when_still_alive os p s Ht Alive).
Qed.

Lemma close_black_kills_unresponsive_child_witness :
  sleep_total (trace (snd (close_black os_alive running_with_job))) = 1000 /\
  existsb is_kill (trace (snd (close_black os_alive running_with_job))) = true.
Proof.
  rewrite (close_black_kills_unresponsive_child os_alive running_with_job
             (mkPopen 4242) eq_refl eq_refl (fun _ => eq_refl)).
  split; reflexivity.
Defined.

Lemma wait_loop_exits os p code : forall k n s,
  (k <= n)%nat ->
  (forall j, (j < polls s + k)%nat -> poll_answer os j = Ret None) ->
  (forall j, (polls s + k <= j)%nat -> poll_answer os j = Ret (Some code)) ->
  fst (wait_loop os p n s) = Ret tt /\
  trace (snd (wait_loop os p n s))
    = trace s ++ poll_sleep_rounds (pid p) k
        ++ (if (k <? n)%nat then [EvPoll (pid p)] else []) /\
  polls (snd (wait_loop os p n s))
    = (polls s + k + (if (k <? n)%nat then 1 else 0))%nat.
Proof.
  induction k as [|k IH]; intros n s Hle Hrun Hgone.
  - destruct n as [|n].
    + cbn. rewrite app_nil_r. repeat split. lia.
    + cbn [wait_loop]. unfold bind, Popen_poll.
      rewrite (Hgone (polls s)) by lia. cbn. repeat split. lia.
  - destruct n as [|n]; [lia|].
    rewrite (wait_loop_S_alive os p n s) by (apply Hrun; lia).
    set (s2 := log (EvSleep 100)
                 (set_polls (S (polls s)) (log (EvPoll (pid p)) s))).
    assert (P2 : polls s2 = S (polls s)) by reflexivity.
    destruct (IH n s2) as (Hr & Ht & Hp).
    + lia.
    + intros j Hj. apply Hrun. rewrite P2 in Hj. lia.
    + intros j Hj. apply Hgone. rewrite P2 in Hj. lia.
    + split; [exact Hr|].
      change (S k <? S n)%nat with (k <? n)%nat.
      split.
      * rewrite Ht. subst s2. cbn [trace log set_polls poll_sleep_rounds].
        rewrite <- !app_assoc. reflexivity.
      * rewrite Hp, P2. lia.
Qed.

(** X17.  A child that exits during the grace period is never killed: if
    after the terminate request the child is seen running by the next [k]
    polls ([k] at most 10) and exited from then on, [close_black] sleeps
    exactly [k] tenths of a second, polls once or twice more, and issues
    no kill. *)
Theorem close_black_spares_exited_child (os : OS) (s : ControllerApp)
  (p : Popen) (k : nat) (code : Z) :
  proc s = Some p ->
  terminate_answer os = Ret tt ->
  (k <= 10)%nat ->
  (forall j, (j < polls s + k)%nat -> poll_answer os j = Ret None) ->
  (forall j, (polls s + k <= j)%nat -> poll_answer os j = Ret (Some code)) ->
  trace (snd (close_black os s))
    = trace s ++ EvTerminate (pid p)
        :: poll_sleep_rounds (pid p) k
        ++ (if (k <? 10)%nat then [EvPoll (pid p); EvPoll (pid p)]
            else [EvPoll (pid p)]).
Proof.
  intros H Ht Hk Hrun Hgone. rewrite (close_black_held os s p H). cbn [snd].
  unfold terminate_wait_kill, try_except, Popen_terminate.
  unfold bind at 1. unfold call at 1. rewrite Ht. cbv beta iota.
  unfold bind at 1.
  destruct (wait_loop_exits os p code k 10 (log (EvTerminate (pid p)) s) Hk
              Hrun Hgone) as (Hr & Htr & Hp).
  destruct (wait_loop os p 10 (log (EvTerminate (pid p)) s)) as [r s1].
  cbn [fst snd] in Hr, Htr, Hp. subst r.
  unfold bind, Popen_poll, ret.
  rewrite (Hgone (polls s1)) by (rewrite Hp; cbn [polls log]; lia).
  cbn [snd trace set_polls]. rewrite trace_log, Htr, trace_log.
  rewrite <- !app_assoc. cbn [app].
  destruct (k <? 10)%nat; reflexivity.
Qed.

Lemma close_black_spares_exited_child_witness :
  trace (snd (close_black os_exits_during_grace running_with_job))
    = trace running_with_job
        ++ [EvTerminate 4242;
            EvPoll 4242; EvSleep 100; EvPoll 4242; EvSleep 100;
            EvPoll 4242; EvSleep 100; EvPoll 4242; EvPoll 4242].
Proof.
  rewrite (close_black_spares_exited_child os_exits_during_grace
             running_with_job (mkPopen 4242) 3 0 eq_refl eq_refl).
  - reflexivity.
  - lia.
  - intros j Hj. cbn in Hj. cbn [poll_answer os_exits_during_grace].
    replace (j <? 4)%nat with true; [reflexivity|].
    symmetry. apply Nat.ltb_lt. lia.
  - intros j Hj. cbn in Hj. cbn [poll_answer os_exits_during_grace].
    replace (j <? 4)%nat with false; [reflexivity|].
    symmetry. apply Nat.ltb_ge. lia.
Defined.

(** X18.  When [terminate()] itself raises, the exception is swallowed
    and nothing more is tried: the child is neither polled nor killed. *)
Theorem close_black_terminate_failure (os : OS) (s : ControllerApp)
  (p : Popen) (e : exn) :
  proc s = Some p ->
  terminate_answer os = Raise e ->
  close_black os s = (Raise attribute_error, log (EvTerminate (pid p)) s).
Proof.
  intros H Ht. rewrite (close_black_held os s p H).
  unfold terminate_wait_kill, try_except, Popen_terminate, bind, call, ret.
  now rewrite Ht.
Qed.

Lemma close_black_terminate_failure_witness :
  trace (snd (close_black os_terminate_raises running_with_job))
    = trace running_with_job ++ [EvTerminate 4242].
Proof.
  rewrite (close_black_terminate_failure os_terminate_raises running_with_job
             (mkPopen 4242) _ eq_refl eq_refl).
  reflexivity.
Defined.

(** X19.  [quit] ends the Tk main loop only when no child is held.  With a
    child held it does exactly what [close_black] does and stops at the
    same exception, so [root.quit()] is never called. *)
Theorem quit_reaches_root_quit_only_when_idle (os : OS) (s : ControllerApp) :
  (proc s = None -> quit os s = (Ret tt, log EvRootQuit s)) /\
  (proc s <> None ->
     quit os s = close_black os s /\
     fst (quit os s) = Raise attribute_error).
Proof.
  split; intro H.
  - unfold quit, bind, call. now rewrite (close_black_idle os s H).
  - destruct (proc s) as [p|] eqn:Hp; [|contradiction].
    unfold quit, bind. rewrite (close_black_held os s p Hp). auto.
Qed.

Lemma quit_reaches_root_quit_only_when_idle_witness :
  quit os_alive init = (Ret tt, log EvRootQuit init) /\
  quit os_exited running_with_job = close_black os_exited running_with_job.
Proof.
  split.
  - exact (proj1 (quit_reaches_root_quit_only_when_idle os_alive init) eq_refl).
  - assert (H : proc running_with_job <> None) by discriminate.
    exact (proj1 (proj2 (quit_reaches_root_quit_only_when_idle os_exited
                           running_with_job) H)).
Defined.

(** *** What every reachable state satisfies *)

Lemma consistent_same_object s s' :
  same_object s s' -> consistent s -> consistent s'.
Proof.
  unfold same_object, consistent.
  intros (Ep & Eq & Ej & Es & Eo & Ec & Et).
  rewrite Ep, Eq, Ej, Es, Eo, Ec, Et. tauto.
Qed.

Lemma _poll_consistent os s p :
  proc s = Some p -> timers s = 0%nat -> _polling s = true ->
  status_var s = running_status p ->
  open_btn s = DISABLED -> close_btn s = NORMAL ->
  consistent (snd (_poll os s)).
Proof.
  intros H Ht Hq Hs Ho Hc. unfold consistent.
  destruct (poll_answer os (polls s)) as [[code|]|e] eqn:Ha.
  - rewrite (_poll_exited os s p code H Ha). cbn. rewrite H, Ht. auto.
  - rewrite (_poll_alive os s p H Ha). cbn. rewrite H, Ht. auto.
  - rewrite (_poll_raises os s p e H Ha). cbn. rewrite H, Ht. auto.
Qed.

Lemma step_consistent s s' : step s s' -> consistent s -> consistent s'.
Proof.
  intros St C. destruct (proc s) as [p|] eqn:H.
  - assert (C' := C). unfold consistent in C'. rewrite H in C'.
    destruct C' as (Ht & Hq & Hs & Ho & Hc).
    destruct St as [os s | os s | os s | os s Hpos].
    + now rewrite (open_black_held os s p H).
    + rewrite (close_black_held os s p H). cbn [snd].
      exact (consistent_same_object _ _
               (terminate_wait_kill_same_object os p s) C).
    + unfold quit, bind. rewrite (close_black_held os s p H). cbn [snd].
      exact (consistent_same_object _ _
               (terminate_wait_kill_same_object os p s) C).
    + unfold timer_fires.
      apply (_poll_consistent os (set_timers (pred (timers s)) s) p);
        cbn; auto. lia.
  - assert (C' := C). unfold consistent in C'. rewrite H in C'.
    destruct C' as (_ & Ht & Hq & Hj & Ho & Hc & Hs).
    destruct St as [os s | os s | os s | os s Hpos].
    + destruct (monitor_var_get os) as [index|e] eqn:Hg.
      * destruct (subprocess_Popen os (_get_child_command os index))
          as [child|e] eqn:Hp.
        -- rewrite (open_black_first_poll os s index child H Hq Hg Hp).
           match goal with |- context [attach_job os ?p ?s1] =>
             destruct (attach_job_same_but_job os p s1)
               as (Ep & _ & _ & _ & _ & Et & _)
           end.
           apply (_poll_consistent os _ (mkPopen child)); cbn; auto.
           rewrite Et. exact Ht.
        -- rewrite (open_black_launch_failure os s index e H Hg Hp).
           unfold consistent. cbn. rewrite Ht.
           repeat split; auto. right. now exists e.
      * now rewrite (open_black_getint_raises os s e H Hg).
    + now rewrite (close_black_idle os s H).
    + unfold quit, bind. rewrite (close_black_idle os s H).
      unfold consistent. cbn. rewrite H, Ht. auto 10.
    + rewrite Ht in Hpos. inversion Hpos.
Qed.

Lemma reachable_consistent s : reachable s -> consistent s.
Proof.
  induction 1 as [|s s' _ IH St].
  - unfold consistent. cbn. auto 10.
  - exact (step_consistent s s' St IH).
Qed.

(** X20.  In every reachable state at most one [_poll] callback is
    queued, and one is queued only while a child is held and the poller
    flag is set: no sequence of clicks and ticks starts a second poller
    chain. *)
Theorem at_most_one_poller (s : ControllerApp) :
  reachable s ->
  (timers s <= 1)%nat /\
  (timers s = 1%nat -> proc s <> None /\ _polling s = true).
Proof.
  intro Hr. pose proof (reachable_consistent s Hr) as C.
  unfold consistent in C. destruct C as [Hle C]. split; [exact Hle|].
  intro H1. destruct (proc s) as [p|].
  - split; [discriminate | tauto].
  - destruct C as (H0 & _). rewrite H0 in H1. discriminate H1.
Qed.

Lemma at_most_one_poller_witness :
  reachable running_with_job /\
  (timers running_with_job <= 1)%nat /\
  proc running_with_job <> None /\ _polling running_with_job = true.
Proof.
  split; [exact running_with_job_reachable|].
  destruct (at_most_one_poller running_with_job running_with_job_reachable)
    as [Hle Hone].
  split; [exact Hle | exact (Hone eq_refl)].
Defined.

(** X21.  In every reachable state the status line and the two buttons
    agree with the child handle: while a child is held the status names
    its pid, Open is disabled and Close enabled; while none is held Open
    is enabled, Close disabled, and the status is the initial one or the
    report of a failed start. *)
Theorem widgets_reflect_child (s : ControllerApp) :
  reachable s ->
  match proc s with
  | Some p =>
    status_var s = running_status p /\
    open_btn s = DISABLED /\ close_btn s = NORMAL
  | None =>
    open_btn s = NORMAL /\ close_btn s = DISABLED /\
    (status_var s = "Status: closed" \/
     exists e, status_var s = ("Failed to start: " ++ msg e)%string)
  end.
Proof.
  intro Hr. pose proof (reachable_consistent s Hr) as C.
  unfold consistent in C. destruct C as [_ C].
  destruct (proc s) as [p|]; tauto.
Qed.

Lemma widgets_reflect_child_witness :
  reachable (snd (open_black os_popen_fails init)) /\
  open_btn (snd (open_black os_popen_fails init)) = NORMAL /\
  close_btn (snd (open_black os_popen_fails init)) = DISABLED.
Proof.
  assert (Hr : reachable (snd (open_black os_popen_fails init)))
    by exact (reach_step _ _ reach_init (step_open os_popen_fails init)).
  split; [exact Hr|].
  pose proof (widgets_reflect_child _ Hr) as H.
  change (proc (snd (open_black os_popen_fails init))) with (@None Popen) in H.
  tauto.
Defined.

Lemma steps_keep_held s s' p :
  steps s s' -> proc s = Some p -> same_handles s s'.
Proof.
  induction 1 as [s | s1 s2 s3 _ IH St]; intro H.
  - apply same_handles_refl.
  - specialize (IH H). eapply same_handles_trans; [exact IH|].
    apply (step_keeps_held s2 s3 p St).
    destruct IH as [E _]. now rewrite E.
Qed.

(** X22.  Once a child is held, no sequence of Open, Close or Quit clicks
    and poller ticks, under any answers of the system, changes [proc] or
    [_job] again: the handles are never released and no second child
    replaces the first. *)
Theorem held_child_is_never_released (s s' : ControllerApp) (p : Popen) :
  steps s s' -> proc s = Some p ->
  proc s' = Some p /\ _job s' = _job s.
Proof.
  intros St H. destruct (steps_keep_held s s' p St H) as [Ep Ej].
  split; [now rewrite Ep | exact Ej].
Qed.

Lemma held_child_is_never_released_witness :
  let s' := snd (open_black os_alive
                   (snd (timer_fires os_exited
                           (snd (close_black os_exited running_with_job))))) in
  proc s' = Some (mkPopen 4242) /\ _job s' = Some 77.
Proof.
  cbv zeta.
  apply (held_child_is_never_released running_with_job _ (mkPopen 4242));
    [|reflexivity].
  eapply steps_more; [eapply steps_more; [eapply steps_more;
    [apply steps_refl|]|]|].
  - exact (step_close os_exited running_with_job).
  - apply step_timer. cbn. lia.
  - apply step_open.
Defined.

(** X23.  When reading the spinbox raises (its text is not a number),
    [open_black] passes the exception on before anything is started: no
    process is spawned and the object is unchanged. *)
Theorem spinbox_error_propagates (os : OS) (s : ControllerApp) (e : exn) :
  proc s = None -> monitor_var_get os = Raise e ->
  open_black os s = (Raise e, s).
Proof. exact (open_black_getint_raises os s e). Qed.

Lemma spinbox_error_propagates_witness :
  open_black os_spinbox_invalid init
    = (Raise (Exception "TclError"
                "expected floating-point number but got abc"), init).
Proof.
  exact (spinbox_error_propagates os_spinbox_invalid init _ eq_refl eq_refl).
Defined.

End SupervisorFacts.

(* ================================================================== *)
(** ** Properties of set_window_icon_for_tk *)

Module WindowIconFacts.
Import BlackController WindowIcon.

(** Case analysis on the answers, innermost scrutinee first. *)
Ltac icon_cases :=
  repeat first
    [ progress cbn [fst snd app negb existsb orb is_set_icon_message
                    is_extract_call used_icon_file extracted_exe_icon sent
                    nothing_done]
    | match goal with
      | |- context [match ?x with _ => _ end] =>
        lazymatch x with
        | context [match _ with _ => _ end] => fail
        | _ => destruct x eqn:?
        end
      end ].

(** X24.  The dict [set_window_icon_for_tk] returns can be trusted: it
    says "sent" only if a WM_SETICON message was really sent; it says the
    icon file was used only if it did not go on to extract the icon of the
    executable, and then "sent" is set too; it says the icon of the
    executable was extracted only in a frozen run and never together with
    the icon file; and off Windows it makes no call and reports nothing
    done. *)
Theorem icon_report_sound (env : IconEnv) :
  let '(status, calls) := set_window_icon_for_tk env in
  (sent status = true -> existsb is_set_icon_message calls = true) /\
  (used_icon_file status = true ->
     extracted_exe_icon status = false /\ sent status = true /\
     existsb is_extract_call calls = false) /\
  (extracted_exe_icon status = true ->
     used_icon_file status = false /\ running_frozen env = true) /\
  (on_win32 env = false -> status = nothing_done /\ calls = []).
Proof.
  unfold set_window_icon_for_tk, icon_body, try_icon_file, try_exe_icon,
    set_class_icons, send_icon, bindW, retW, askW, callW, tryW.
  destruct (on_win32 env) eqn:Hwin; cbn [negb];
    [|repeat split; intros; discriminate].
  icon_cases;
    repeat split; intros; try discriminate; try reflexivity; try assumption;
    try congruence.
Qed.

Lemma icon_report_sound_witness :
  set_window_icon_for_tk env_icon_file
    = (mkIconStatus true false true,
       [CallLoadImageW "icon.ico" 1 16;
        CallSendMessageW 1312 128 0 501;
        CallSendMessageW 1312 128 1 501]) /\
  existsb is_set_icon_message (snd (set_window_icon_for_tk env_icon_file))
    = true.
Proof.
  split; [reflexivity|].
  pose proof (icon_report_sound env_icon_file) as H.
  destruct (set_window_icon_for_tk env_icon_file) as [status calls] eqn:E.
  destruct H as (Hsent & _).
  apply Hsent. vm_compute in E. injection E as <- _. reflexivity.
Defined.

(** X25.  When the icon file cannot be used (it is absent, or LoadImageW
    returns a null handle) and the run is not frozen, no WM_SETICON
    message is sent, no icon is extracted, and the function reports
    nothing done. *)
Theorem no_icon_source_nothing_sent (env : IconEnv) (hwnd : Z) :
  on_win32 env = true -> running_frozen env = false ->
  winfo_id env = Ret hwnd ->
  (ico_exists env = Ret false \/
   (ico_exists env = Ret true /\ exists h, LoadImageW env = Ret h /\ truthy h = false)) ->
  let '(status, calls) := set_window_icon_for_tk env in
  status = nothing_done /\
  existsb is_set_icon_message calls = false /\
  existsb is_extract_call calls = false.
Proof.
  intros Hw Hf Hid Hcase.
  unfold set_window_icon_for_tk, icon_body, try_icon_file, try_exe_icon,
    bindW, retW, askW, callW.
  rewrite Hw, Hid, Hf. cbn [negb].
  destruct Hcase as [He | (He & h & Hl & Th)].
  - rewrite He. repeat split.
  - rewrite He, Hl, Th. repeat split.
Qed.

Lemma no_icon_source_nothing_sent_witness :
  set_window_icon_for_tk
    (mkIconEnv true "icon.ico" (Ret 1312) (Ret false) (Ret 0)
       (fun _ _ => Ret 0) false "python.exe" (Ret (0, None, None)) true
       (fun _ _ => Ret 0))
    = (nothing_done, []).
Proof.
  pose proof (no_icon_source_nothing_sent
                (mkIconEnv true "icon.ico" (Ret 1312) (Ret false) (Ret 0)
                   (fun _ _ => Ret 0) false "python.exe"
                   (Ret (0, None, None)) true (fun _ _ => Ret 0))
                1312 eq_refl eq_refl eq_refl (or_introl eq_refl)) as H.
  destruct (set_window_icon_for_tk _) as [status calls] eqn:E.
  destruct H as (Hs & _). vm_compute in E. injection E as <- <-. reflexivity.
Defined.

End WindowIconFacts.
